(** * A shallow embedding of the DPF / sst-filters demo plugin

    Two variants of [ImGuiPluginDSP] live in the repository:
    - the filtered-stereo variant (three parameters, the live left input is
      run through the filter unit with 4-wide loads and stores), and
    - the gain-only variant of [src/PluginDSP.cpp] (two parameters, a 440 Hz
      test tone is run through the filter unit).

    C++ [float] and [double] are IEEE-754 binary32 and binary64, modelled
    with the Standard Library's [SpecFloat] at precision 24 / 53.  The
    sst-filters library, [CParamSmooth], libm and the DPF base class are not
    part of the embedded code: they are interfaces (type classes) below. *)

From Stdlib Require Import String.
From Stdlib Require Import ZArith List Bool Lia Arith.
From Stdlib Require Import SpecFloat.
Import ListNotations.

Set Implicit Arguments.

(** ** IEEE-754 numbers *)

(** A C++ [float] or [double]: the value is a [spec_float], the format is
    a property of the operation that produced it. *)
Definition float := spec_float.
Definition double := spec_float.

Module F32.
Definition prec : Z := 24.
Definition emax : Z := 128.
Definition mul : float -> float -> float := SFmul prec emax.
Definition add : float -> float -> float := SFadd prec emax.
Definition sub : float -> float -> float := SFsub prec emax.
Definition div : float -> float -> float := SFdiv prec emax.
(** An integer literal or integer value converted to [float]. *)
Definition of_Z (z : Z) : float := binary_normalize prec emax z 0 false.
(** [(float) d] for a [double] d: round to nearest, ties to even. *)
Definition of_double (d : double) : float :=
  match d with
  | S754_finite s m e => binary_round prec emax s m e
  | _ => d
  end.
Definition zero : float := S754_zero false.     (* 0.0f *)
Definition one : float := S754_finite false 8388608 (-23).  (* 1.0f *)
End F32.

Module F64.
Definition prec : Z := 53.
Definition emax : Z := 1024.
Definition mul : double -> double -> double := SFmul prec emax.
Definition add : double -> double -> double := SFadd prec emax.
Definition div : double -> double -> double := SFdiv prec emax.
Definition of_Z (z : Z) : double := binary_normalize prec emax z 0 false.
(** The implicit promotion of a [float] to [double]: exact. *)
Definition of_float (f : float) : double :=
  match f with
  | S754_finite s m e => binary_round prec emax s m e
  | _ => f
  end.
(** [a < b] and [a > b] on doubles; false when either side is a NaN. *)
Definition lt (a b : double) : bool := SFltb a b.
Definition gt (a b : double) : bool := SFltb b a.
Definition le (a b : double) : bool := SFleb a b.
End F64.

(** The literals of the source. *)
Definition lit_m90_0 : double := S754_finite true 6333186975989760 (-46). (* -90.0 *)
Definition lit_30_0 : double := S754_finite false 8444249301319680 (-48). (* 30.0 *)
Definition lit_m90_0f : float := S754_finite true 11796480 (-17).   (* -90.0f *)
Definition lit_10_0f : float := S754_finite false 10485760 (-20).   (* 10.0f *)
Definition lit_0_05f : float := S754_finite false 13421773 (-28).   (* 0.05f *)
Definition lit_20_0f : float := S754_finite false 10485760 (-19).   (* 20.0f *)
Definition lit_0_5f : float := S754_finite false 8388608 (-24).     (* 0.5f *)
Definition lit_440_0f : float := S754_finite false 14417920 (-15).  (* 440.0f *)
Definition lit_0_2 : double := S754_finite false 7205759403792794 (-55). (* 0.2 *)
Definition lit_m12_0 : double := S754_finite true 6755399441055744 (-49). (* -12.0 *)
Definition lit_0_25 : double := S754_finite false 4503599627370496 (-54). (* 0.25 *)
Definition lit_0_0 : double := S754_zero false.                     (* 0.0 *)
Definition M_PI : double := S754_finite false 7074237752028440 (-51).


(** ** The macros of the source

    [MIN], [MAX] and [CLAMP] are only used as [CLAMP(value, -90.0, 30.0)]:
    the bounds are [double] literals, so [value] is promoted and the three
    macros compare and return doubles.  The argument of [DB_CO] is that
    double; [-90.0f] and [0.05f] are promoted to it, and the product is
    converted back to [float] for [powf]. *)

Definition MIN (a b : double) : double := if F64.lt a b then a else b.
Definition MAX (a b : double) : double := if F64.gt a b then a else b.
Definition CLAMP (v min max : double) : double := MIN max (MAX min v).

(** libm: [powf] and the [float] overload of [std::sin]. *)
Class Libm := {
  powf : float -> float -> float;
  sinf : float -> float
}.

Definition DB_CO `{Libm} (g : double) : float :=
  if F64.gt g (F64.of_float lit_m90_0f)
  then powf lit_10_0f (F32.of_double (F64.mul g (F64.of_float lit_0_05f)))
  else F32.zero.

(** ** SSE vectors: [__m128] is four floats, lane 0 at the lowest address *)

Record vec4 := Vec4 { lane0 : float; lane1 : float; lane2 : float; lane3 : float }.

Definition _mm_setzero_ps : vec4 := Vec4 F32.zero F32.zero F32.zero F32.zero.
Definition _mm_set_ps1 (x : float) : vec4 := Vec4 x x x x.
Definition _mm_mul_ps (a b : vec4) : vec4 :=
  Vec4 (F32.mul (lane0 a) (lane0 b)) (F32.mul (lane1 a) (lane1 b))
       (F32.mul (lane2 a) (lane2 b)) (F32.mul (lane3 a) (lane3 b)).

(** ** 32- and 64-bit integers *)

Definition to_int32 (z : Z) : Z := (z + 2 ^ 31) mod 2 ^ 32 - 2 ^ 31.
Definition to_uint64 (z : Z) : Z := z mod 2 ^ 64.

(** ** sst-filters: the part of the library the plugin touches *)

(** Where a pointer of [QuadFilterUnitState::DB] points. *)
Inductive float_ptr :=
| nullptr
| delayBuffer_at (lane offset : nat).

(** A delay line store: the plugin's [float delayBuffer[4][...]]. *)
Definition delay_store := list (list float).

Module QuadFilterUnitState.
(** [C], [R], [DB], [active], [WP] are the members the plugin writes;
    [others] stands for the members only the library uses. *)
Record t (Others : Type) := Build {
  C : list vec4;
  R : list vec4;
  DB : list float_ptr;
  active : list Z;
  WP : list Z;
  others : Others
}.
End QuadFilterUnitState.

Module FilterCoefficientMaker.
(** [C] is the public coefficient array the plugin writes in [run];
    [internals] stands for the rest of the object. *)
Record t (Internals : Type) := Build {
  C : list float;
  internals : Internals
}.
End FilterCoefficientMaker.

Class SstFilters := {
  n_cm_coeffs : nat;
  n_filter_registers : nat;
  MAX_FB_COMB : nat;
  FIRipol_N : nat;
  FilterType : Type;
  FilterSubType : Type;
  fut_lpmoog : FilterType;
  fut_vintageladder : FilterType;
  st_lpmoog_6dB : FilterSubType;
  FilterSubType_of_int : Z -> FilterSubType;
  QuadOthers : Type;
  QuadOthers_zero : QuadOthers;
  CoeffInternals : Type;
  (** the default constructor of [FilterCoefficientMaker<>] *)
  FilterCoefficientMaker_new : FilterCoefficientMaker.t CoeffInternals;
  Reset : FilterCoefficientMaker.t CoeffInternals -> FilterCoefficientMaker.t CoeffInternals;
  setSampleRateAndBlockSize :
    float -> Z -> FilterCoefficientMaker.t CoeffInternals -> FilterCoefficientMaker.t CoeffInternals;
  (** [MakeCoeffs(Freq, Reso, Type, SubType, storage, tuningAdjusted)];
      the plugin always passes [nullptr] for the storage. *)
  MakeCoeffs :
    float -> float -> FilterType -> FilterSubType -> bool ->
    FilterCoefficientMaker.t CoeffInternals -> FilterCoefficientMaker.t CoeffInternals;
  updateState :
    FilterCoefficientMaker.t CoeffInternals ->
    QuadFilterUnitState.t QuadOthers -> QuadFilterUnitState.t QuadOthers;
  (** A filter unit works on the state it is handed and on the delay lines
      its [DB] pointers reach. *)
  GetQFPtrFilterUnit :
    FilterType -> FilterSubType ->
    QuadFilterUnitState.t QuadOthers -> delay_store -> vec4 ->
    vec4 * QuadFilterUnitState.t QuadOthers * delay_store
}.

Definition CoeffMaker `{SstFilters} := FilterCoefficientMaker.t CoeffInternals.
Definition QuadState `{SstFilters} := QuadFilterUnitState.t QuadOthers.
Definition FilterUnitQFPtr `{SstFilters} :=
  QuadState -> delay_store -> vec4 -> vec4 * QuadState * delay_store.

(** [sst::filters::QuadFilterUnitState filterState{}]: value-initialised. *)
Definition QuadFilterUnitState_zero `{SstFilters} : QuadState :=
  QuadFilterUnitState.Build
    (repeat _mm_setzero_ps n_cm_coeffs) (repeat _mm_setzero_ps n_filter_registers)
    (repeat nullptr 4) (repeat 0%Z 4) (repeat 0%Z 4) QuadOthers_zero.

(** ** CParamSmooth: the gain smoother's interface, as the plugin uses it *)

Class ParamSmooth := {
  CParamSmooth : Type;
  CParamSmooth_new : float -> double -> CParamSmooth;
  setSampleRate : double -> CParamSmooth -> CParamSmooth;
  flush : CParamSmooth -> CParamSmooth;
  process : float -> CParamSmooth -> float * CParamSmooth
}.

(** ** The DPF base class: what [getSampleRate()] and [getBufferSize()] read *)

Record Plugin := { getSampleRate : double; getBufferSize : Z }.

(** ** Observable effects and the monad the methods run in *)

(** What a method does to its surroundings, in program order: accesses to
    the host's sample memory (one event per float), calls into sst-filters
    and into the smoother, and debug output. *)
Inductive event :=
| Load (addr : nat)
| Store (addr : nat) (v : float)
| Call_Reset
| Call_setSampleRateAndBlockSize (sampleRate : float) (blockSize : Z)
| Call_MakeCoeffs (Freq Reso : float)
| Call_updateState
| Call_FUnit (input : vec4)
| Call_flush
| Call_setSampleRate (sampleRate : double)
| Call_process (target : float)
| Stdout (fmt : string) (arg : float).

Section StateMonad.
Variable St : Type.

(** State passing with an event log. *)
Definition M (A : Type) : Type := St -> A * St * list event.

Definition ret {A} (a : A) : M A := fun s => (a, s, []).

Definition bind {A B} (m : M A) (k : A -> M B) : M B :=
  fun s =>
    let '(a, s1, e1) := m s in
    let '(b, s2, e2) := k a s1 in
    (b, s2, e1 ++ e2).

Definition emit (e : event) : M unit := fun s => (tt, s, [e]).
Definition gets {A} (f : St -> A) : M A := fun s => (f s, s, []).
Definition modify (f : St -> St) : M unit := fun s => (tt, f s, []).

(** [for (i = start; i < start + n; ++i) body(i)] *)
Fixpoint for_from (start n : nat) (body : nat -> M unit) : M unit :=
  match n with
  | O => ret tt
  | S n' => bind (body start) (fun _ => for_from (S start) n' body)
  end.

Definition value {A} (r : A * St * list event) : A := fst (fst r).
Definition final {A} (r : A * St * list event) : St := snd (fst r).
Definition events {A} (r : A * St * list event) : list event := snd r.
End StateMonad.

Arguments ret {St A} a.
Arguments bind {St A B} m k.
Arguments emit {St} e.
Arguments gets {St A} f.
Arguments modify {St} f.
Arguments for_from {St} start n body.
Arguments value {St A} r.
Arguments final {St A} r.
Arguments events {St A} r.

Declare Scope cpp_scope.
Delimit Scope cpp_scope with cpp.
Notation "x <- c1 ;; c2" := (bind c1 (fun x => c2))
  (at level 61, c1 at next level, right associativity) : cpp_scope.
Notation "c1 ;; c2" := (bind c1 (fun _ => c2))
  (at level 61, right associativity) : cpp_scope.

(** ** Arrays *)

(** [a[i] = v] on an array held as a list; an index past the end (undefined
    behaviour in C++) leaves the list as it is. *)
Fixpoint array_set {A} (i : nat) (v : A) (a : list A) : list A :=
  match a, i with
  | [], _ => []
  | _ :: t, O => v :: t
  | h :: t, S i' => h :: array_set i' v t
  end.

(** [std::fill(a, &a[n], v)] *)
Definition std_fill {A} (a : list A) (n : nat) (v : A) : list A :=
  repeat v n ++ skipn n a.

(** ** Host sample memory: one flat store of floats, buffers are addresses *)

Definition memory := nat -> float.

Definition mem_store (m : memory) (a : nat) (v : float) : memory :=
  fun x => if Nat.eqb x a then v else m x.

(** Four floats written at [a .. a+3], lowest address first. *)
Definition store4 (m : memory) (a : nat) (v : vec4) : memory :=
  mem_store (mem_store (mem_store (mem_store m a (lane0 v)) (a + 1) (lane1 v))
               (a + 2) (lane2 v)) (a + 3) (lane3 v).

(** ** DPF parameter descriptors, as [initParameter] fills them *)

Module ParameterRanges.
Record t := Build { def : float; min : float; max : float }.
End ParameterRanges.

(** DPF's [Parameter] struct. *)
Record DistrhoParameter := {
  ranges : ParameterRanges.t;
  hints_automatable : bool;   (* hints = kParameterIsAutomatable *)
  name : string;
  shortName : string;
  symbol : string;
  unit_ : string
}.

(** Parameter literals. *)
Definition lit_30_0f : float := F32.of_Z 30.
Definition lit_m0_0f : float := S754_zero true.    (* -0.0f *)
Definition lit_m60_0f : float := F32.of_Z (-60).
Definition lit_64_0f : float := F32.of_Z 64.
Definition lit_m12_0f : float := F32.of_Z (-12).

(** ** The filtered-stereo variant *)

Module Filtered.
Section WithLibraries.
Context {libm : Libm} {sst : SstFilters} {smooth : ParamSmooth}.

Definition kParamGain : Z := 0.
Definition kParamFreq : Z := 1.
Definition kParamRes : Z := 2.
Definition kParamCount : Z := 3.

(** The members of [class ImGuiPluginDSP : public Plugin]. *)
Record ImGuiPluginDSP := {
  base : Plugin;
  fSampleRate : double;
  fGainDB : float;
  fGainLinear : float;
  fSmoothGain : CParamSmooth;
  fFreqNote : float;
  fResonance : float;
  FUnit : FilterUnitQFPtr;
  coeffMaker : CoeffMaker;
  filterState : QuadState;
  ft : FilterType;
  fst_ : FilterSubType;
  dirtyParamFreq : bool;
  delayBuffer : delay_store
}.

(** The object together with the host memory its [run] works on. *)
Record World := { self : ImGuiPluginDSP; mem : memory }.

Definition set_fSampleRate v p :=
  Build_ImGuiPluginDSP (base p) v (fGainDB p) (fGainLinear p) (fSmoothGain p)
    (fFreqNote p) (fResonance p) (FUnit p) (coeffMaker p) (filterState p)
    (ft p) (fst_ p) (dirtyParamFreq p) (delayBuffer p).
Definition set_fGainDB v p :=
  Build_ImGuiPluginDSP (base p) (fSampleRate p) v (fGainLinear p) (fSmoothGain p)
    (fFreqNote p) (fResonance p) (FUnit p) (coeffMaker p) (filterState p)
    (ft p) (fst_ p) (dirtyParamFreq p) (delayBuffer p).
Definition set_fGainLinear v p :=
  Build_ImGuiPluginDSP (base p) (fSampleRate p) (fGainDB p) v (fSmoothGain p)
    (fFreqNote p) (fResonance p) (FUnit p) (coeffMaker p) (filterState p)
    (ft p) (fst_ p) (dirtyParamFreq p) (delayBuffer p).
Definition set_fSmoothGain v p :=
  Build_ImGuiPluginDSP (base p) (fSampleRate p) (fGainDB p) (fGainLinear p) v
    (fFreqNote p) (fResonance p) (FUnit p) (coeffMaker p) (filterState p)
    (ft p) (fst_ p) (dirtyParamFreq p) (delayBuffer p).
Definition set_fFreqNote v p :=
  Build_ImGuiPluginDSP (base p) (fSampleRate p) (fGainDB p) (fGainLinear p)
    (fSmoothGain p) v (fResonance p) (FUnit p) (coeffMaker p) (filterState p)
    (ft p) (fst_ p) (dirtyParamFreq p) (delayBuffer p).
Definition set_fResonance v p :=
  Build_ImGuiPluginDSP (base p) (fSampleRate p) (fGainDB p) (fGainLinear p)
    (fSmoothGain p) (fFreqNote p) v (FUnit p) (coeffMaker p) (filterState p)
    (ft p) (fst_ p) (dirtyParamFreq p) (delayBuffer p).
Definition set_coeffMaker v p :=
  Build_ImGuiPluginDSP (base p) (fSampleRate p) (fGainDB p) (fGainLinear p)
    (fSmoothGain p) (fFreqNote p) (fResonance p) (FUnit p) v (filterState p)
    (ft p) (fst_ p) (dirtyParamFreq p) (delayBuffer p).
Definition set_filterState v p :=
  Build_ImGuiPluginDSP (base p) (fSampleRate p) (fGainDB p) (fGainLinear p)
    (fSmoothGain p) (fFreqNote p) (fResonance p) (FUnit p) (coeffMaker p) v
    (ft p) (fst_ p) (dirtyParamFreq p) (delayBuffer p).
Definition set_delayBuffer v p :=
  Build_ImGuiPluginDSP (base p) (fSampleRate p) (fGainDB p) (fGainLinear p)
    (fSmoothGain p) (fFreqNote p) (fResonance p) (FUnit p) (coeffMaker p)
    (filterState p) (ft p) (fst_ p) (dirtyParamFreq p) v.

Local Open Scope cpp_scope.

(** Reading and writing a member of [*this]. *)
Definition this {A} (f : ImGuiPluginDSP -> A) : M World A :=
  gets (fun w => f (self w)).
Definition assign (f : ImGuiPluginDSP -> ImGuiPluginDSP) : M World unit :=
  modify (fun w => Build_World (f (self w)) (mem w)).

(** One float read from / written to host memory. *)
Definition load (a : nat) : M World float :=
  emit (Load a) ;; gets (fun w => mem w a).
Definition store (a : nat) (v : float) : M World unit :=
  emit (Store a v) ;; modify (fun w => Build_World (self w) (mem_store (mem w) a v)).

(** Unaligned 4-float load and store at [p .. p+3]. *)
Definition _mm_loadu_ps (p : nat) : M World vec4 :=
  x0 <- load p ;; x1 <- load (p + 1) ;; x2 <- load (p + 2) ;; x3 <- load (p + 3) ;;
  ret (Vec4 x0 x1 x2 x3).
Definition _mm_storeu_ps (p : nat) (v : vec4) : M World unit :=
  store p (lane0 v) ;; store (p + 1) (lane1 v) ;;
  store (p + 2) (lane2 v) ;; store (p + 3) (lane3 v).

(** The constructor; [delayBuffer] is not initialised by it. *)
Definition ImGuiPluginDSP_new (plugin : Plugin) (uninit : delay_store)
  : ImGuiPluginDSP :=
  let ft0 := fut_vintageladder in
  let fst0 := FilterSubType_of_int 0 in
  {| base := plugin;
     fSampleRate := getSampleRate plugin;
     fGainDB := F32.zero;
     fGainLinear := F32.one;
     fSmoothGain := CParamSmooth_new lit_20_0f (getSampleRate plugin);
     fFreqNote := F32.zero;
     fResonance := lit_0_5f;
     FUnit := GetQFPtrFilterUnit ft0 fst0;
     coeffMaker := FilterCoefficientMaker_new;
     filterState := QuadFilterUnitState_zero;
     ft := ft0;
     fst_ := fst0;
     dirtyParamFreq := false;
     delayBuffer := uninit |}.

Definition initParameter (index : Z) (parameter : DistrhoParameter) : DistrhoParameter :=
  match index with
  | 0%Z =>
      {| ranges := {| ParameterRanges.min := lit_m90_0f; ParameterRanges.max := lit_30_0f;
                     ParameterRanges.def := lit_m0_0f |};
         hints_automatable := true;
         name := "Gain"; shortName := "Gain"; symbol := "gain"; unit_ := "dB" |}
  | 1%Z =>
      {| ranges := {| ParameterRanges.min := lit_m60_0f; ParameterRanges.max := lit_64_0f;
                     ParameterRanges.def := lit_m12_0f |};
         hints_automatable := true;
         name := "FrequencyNote"; shortName := "FrequencyNote";
         symbol := "frequencynote"; unit_ := "" |}
  | 2%Z =>
      {| ranges := {| ParameterRanges.min := F32.zero; ParameterRanges.max := F32.one;
                     ParameterRanges.def := lit_0_5f |};
         hints_automatable := true;
         name := "Resonance"; shortName := "Resonance";
         symbol := "resonance"; unit_ := "" |}
  | _ => parameter
  end%string.

Definition getParameterValue (index : Z) : M World float :=
  match index with
  | 0%Z => this fGainDB
  | 1%Z => this fFreqNote
  | 2%Z => this fResonance
  | _ => ret (F32.of_double lit_0_0)
  end.

Definition setParameterValue (index : Z) (value : float) : M World unit :=
  match index with
  | 0%Z =>
      assign (set_fGainDB value) ;;
      assign (set_fGainLinear
                (DB_CO (CLAMP (F64.of_float value) lit_m90_0 lit_30_0)))
  | 1%Z =>
      assign (set_fFreqNote value) ;;
      v <- this fFreqNote ;;
      emit (Stdout "New freq note: %f"%string v)
  | 2%Z =>
      assign (set_fResonance value) ;;
      v <- this fResonance ;;
      emit (Stdout "New resonance: %f"%string v)
  | _ => ret tt
  end.

(** Calls into the coefficient maker and the smoother: each call is
    logged and its effect stored back into the member it works on. *)
Definition coeffMaker_Reset : M World unit :=
  emit Call_Reset ;;
  cm <- this coeffMaker ;;
  assign (set_coeffMaker (Reset cm)).

Definition coeffMaker_setSampleRateAndBlockSize (sr : float) (bs : Z)
  : M World unit :=
  emit (Call_setSampleRateAndBlockSize sr bs) ;;
  cm <- this coeffMaker ;;
  assign (set_coeffMaker (setSampleRateAndBlockSize sr bs cm)).

Definition coeffMaker_MakeCoeffs (Freq Reso : float) (type : FilterType)
  (subtype : FilterSubType) (tuningAdjusted : bool) : M World unit :=
  emit (Call_MakeCoeffs Freq Reso) ;;
  cm <- this coeffMaker ;;
  assign (set_coeffMaker (MakeCoeffs Freq Reso type subtype tuningAdjusted cm)).

Definition coeffMaker_updateState : M World unit :=
  emit Call_updateState ;;
  cm <- this coeffMaker ;;
  fs <- this filterState ;;
  assign (set_filterState (updateState cm fs)).

Definition fSmoothGain_flush : M World unit :=
  emit Call_flush ;;
  sm <- this fSmoothGain ;;
  assign (set_fSmoothGain (flush sm)).

Definition fSmoothGain_setSampleRate (sr : double) : M World unit :=
  emit (Call_setSampleRate sr) ;;
  sm <- this fSmoothGain ;;
  assign (set_fSmoothGain (setSampleRate sr sm)).

Definition fSmoothGain_process (target : float) : M World float :=
  emit (Call_process target) ;;
  sm <- this fSmoothGain ;;
  let '(out, sm') := process target sm in
  assign (set_fSmoothGain sm') ;;
  ret out.

(** [FUnit(&filterState, in)] *)
Definition call_FUnit (input : vec4) : M World vec4 :=
  emit (Call_FUnit input) ;;
  f <- this FUnit ;;
  fs <- this filterState ;;
  db <- this delayBuffer ;;
  let '(out, fs', db') := f fs db input in
  assign (set_filterState fs') ;;
  assign (set_delayBuffer db') ;;
  ret out.

(** Updates of the members of [filterState]. *)
Definition fs_set_R v (fs : QuadState) : QuadState :=
  QuadFilterUnitState.Build (QuadFilterUnitState.C fs) v
    (QuadFilterUnitState.DB fs) (QuadFilterUnitState.active fs)
    (QuadFilterUnitState.WP fs) (QuadFilterUnitState.others fs).
Definition fs_set_C v (fs : QuadState) : QuadState :=
  QuadFilterUnitState.Build v (QuadFilterUnitState.R fs)
    (QuadFilterUnitState.DB fs) (QuadFilterUnitState.active fs)
    (QuadFilterUnitState.WP fs) (QuadFilterUnitState.others fs).
Definition fs_set_DB v (fs : QuadState) : QuadState :=
  QuadFilterUnitState.Build (QuadFilterUnitState.C fs) (QuadFilterUnitState.R fs)
    v (QuadFilterUnitState.active fs)
    (QuadFilterUnitState.WP fs) (QuadFilterUnitState.others fs).
Definition fs_set_active v (fs : QuadState) : QuadState :=
  QuadFilterUnitState.Build (QuadFilterUnitState.C fs) (QuadFilterUnitState.R fs)
    (QuadFilterUnitState.DB fs) v
    (QuadFilterUnitState.WP fs) (QuadFilterUnitState.others fs).
Definition fs_set_WP v (fs : QuadState) : QuadState :=
  QuadFilterUnitState.Build (QuadFilterUnitState.C fs) (QuadFilterUnitState.R fs)
    (QuadFilterUnitState.DB fs) (QuadFilterUnitState.active fs)
    v (QuadFilterUnitState.others fs).

Definition on_filterState (f : QuadState -> QuadState) : M World unit :=
  assign (fun p => set_filterState (f (filterState p)) p).

Definition resetFilterRegisters : M World unit :=
  coeffMaker_Reset ;;
  on_filterState (fun fs =>
    fs_set_R (std_fill (QuadFilterUnitState.R fs) n_filter_registers _mm_setzero_ps) fs) ;;
  on_filterState (fun fs =>
    fs_set_C (std_fill (QuadFilterUnitState.C fs) n_cm_coeffs _mm_setzero_ps) fs) ;;
  for_from 0 4 (fun i =>
    on_filterState (fun fs => fs_set_WP (array_set i 0%Z (QuadFilterUnitState.WP fs)) fs) ;;
    on_filterState (fun fs =>
      fs_set_active (array_set i (to_int32 4294967295) (QuadFilterUnitState.active fs)) fs) ;;
    on_filterState (fun fs =>
      fs_set_DB (array_set i (delayBuffer_at i 0) (QuadFilterUnitState.DB fs)) fs)).

Definition activate : M World unit :=
  fSmoothGain_flush ;;
  resetFilterRegisters ;;
  b <- this base ;;
  coeffMaker_setSampleRateAndBlockSize
    (F32.of_double (getSampleRate b)) (getBufferSize b) ;;
  freq <- this fFreqNote ;;
  reso <- this fResonance ;;
  type <- this ft ;;
  subtype <- this fst_ ;;
  coeffMaker_MakeCoeffs freq reso type subtype false ;;
  coeffMaker_updateState.

(** [coeffMaker.C[f] = filterState.C[f][0]] *)
Definition copy_coefficient (f : nat) : M World unit :=
  fs <- this filterState ;;
  assign (fun p =>
    set_coeffMaker
      (FilterCoefficientMaker.Build
         (array_set f (lane0 (nth f (QuadFilterUnitState.C fs) _mm_setzero_ps))
            (FilterCoefficientMaker.C (coeffMaker p)))
         (FilterCoefficientMaker.internals (coeffMaker p))) p).

(** The part of [run] before the sample loop. *)
Definition run_prepare : M World unit :=
  for_from 0 n_cm_coeffs copy_coefficient ;;
  freq <- this fFreqNote ;;
  reso <- this fResonance ;;
  type <- this ft ;;
  subtype <- this fst_ ;;
  coeffMaker_MakeCoeffs freq reso type subtype false ;;
  coeffMaker_updateState.

(** The body of the sample loop of [run]. *)
Definition run_sample (inpL outL outR : nat) (i : nat) : M World unit :=
  x <- _mm_loadu_ps (inpL + i) ;;
  filt <- call_FUnit x ;;
  target <- this fGainLinear ;;
  gain <- fSmoothGain_process target ;;
  let post := _mm_mul_ps filt (_mm_set_ps1 gain) in
  _mm_storeu_ps (outL + i) post ;;
  s <- load (inpL + i) ;;
  store (outR + i) (F32.mul s gain).

(** [inputs] and [outputs] are the two pointer arrays of the host: index
    to buffer address. *)
Definition run (inputs outputs : nat -> nat) (frames : nat) : M World unit :=
  let inpL := inputs 0 in
  let inpR := inputs 1 in
  let outL := outputs 0 in
  let outR := outputs 1 in
  run_prepare ;;
  for_from 0 frames (run_sample inpL outL outR).

Definition sampleRateChanged (newSampleRate : double) : M World unit :=
  assign (set_fSampleRate newSampleRate) ;;
  fSmoothGain_setSampleRate newSampleRate ;;
  resetFilterRegisters ;;
  b <- this base ;;
  coeffMaker_setSampleRateAndBlockSize
    (F32.of_double (getSampleRate b)) (getBufferSize b).
End WithLibraries.
End Filtered.

(** ** The gain-only variant of [src/PluginDSP.cpp] *)

Module GainOnly.
Section WithLibraries.
Context {libm : Libm} {sst : SstFilters} {smooth : ParamSmooth}.

Definition kParamGain : Z := 0.
Definition kParamFreq : Z := 1.
Definition kParamCount : Z := 2.

Record ImGuiPluginDSP := {
  base : Plugin;
  fSampleRate : double;
  fGainDB : float;
  fGainLinear : float;
  fSmoothGain : CParamSmooth;
  fFreqNote : float;
  FUnit : FilterUnitQFPtr;
  coeffMaker : CoeffMaker;
  filterState : QuadState;
  ft : FilterType;
  fst_ : FilterSubType;
  time : Z;          (* uint64_t *)
  timef : float;
  sin_prec : float
}.

Record World := { self : ImGuiPluginDSP; mem : memory }.

Definition set_fSampleRate v p :=
  Build_ImGuiPluginDSP (base p) v (fGainDB p) (fGainLinear p) (fSmoothGain p)
    (fFreqNote p) (FUnit p) (coeffMaker p) (filterState p) (ft p) (fst_ p)
    (time p) (timef p) (sin_prec p).
Definition set_fGainDB v p :=
  Build_ImGuiPluginDSP (base p) (fSampleRate p) v (fGainLinear p) (fSmoothGain p)
    (fFreqNote p) (FUnit p) (coeffMaker p) (filterState p) (ft p) (fst_ p)
    (time p) (timef p) (sin_prec p).
Definition set_fGainLinear v p :=
  Build_ImGuiPluginDSP (base p) (fSampleRate p) (fGainDB p) v (fSmoothGain p)
    (fFreqNote p) (FUnit p) (coeffMaker p) (filterState p) (ft p) (fst_ p)
    (time p) (timef p) (sin_prec p).
Definition set_fSmoothGain v p :=
  Build_ImGuiPluginDSP (base p) (fSampleRate p) (fGainDB p) (fGainLinear p) v
    (fFreqNote p) (FUnit p) (coeffMaker p) (filterState p) (ft p) (fst_ p)
    (time p) (timef p) (sin_prec p).
Definition set_fFreqNote v p :=
  Build_ImGuiPluginDSP (base p) (fSampleRate p) (fGainDB p) (fGainLinear p)
    (fSmoothGain p) v (FUnit p) (coeffMaker p) (filterState p) (ft p) (fst_ p)
    (time p) (timef p) (sin_prec p).
Definition set_coeffMaker v p :=
  Build_ImGuiPluginDSP (base p) (fSampleRate p) (fGainDB p) (fGainLinear p)
    (fSmoothGain p) (fFreqNote p) (FUnit p) v (filterState p) (ft p) (fst_ p)
    (time p) (timef p) (sin_prec p).
Definition set_filterState v p :=
  Build_ImGuiPluginDSP (base p) (fSampleRate p) (fGainDB p) (fGainLinear p)
    (fSmoothGain p) (fFreqNote p) (FUnit p) (coeffMaker p) v (ft p) (fst_ p)
    (time p) (timef p) (sin_prec p).
Definition set_time v p :=
  Build_ImGuiPluginDSP (base p) (fSampleRate p) (fGainDB p) (fGainLinear p)
    (fSmoothGain p) (fFreqNote p) (FUnit p) (coeffMaker p) (filterState p)
    (ft p) (fst_ p) v (timef p) (sin_prec p).
Definition set_timef v p :=
  Build_ImGuiPluginDSP (base p) (fSampleRate p) (fGainDB p) (fGainLinear p)
    (fSmoothGain p) (fFreqNote p) (FUnit p) (coeffMaker p) (filterState p)
    (ft p) (fst_ p) (time p) v (sin_prec p).

Local Open Scope cpp_scope.

Definition this {A} (f : ImGuiPluginDSP -> A) : M World A :=
  gets (fun w => f (self w)).
Definition assign (f : ImGuiPluginDSP -> ImGuiPluginDSP) : M World unit :=
  modify (fun w => Build_World (f (self w)) (mem w)).
Definition store (a : nat) (v : float) : M World unit :=
  emit (Store a v) ;; modify (fun w => Build_World (self w) (mem_store (mem w) a v)).

(** The constructor; [time] and [timef] are not initialised by it. *)
Definition ImGuiPluginDSP_new (plugin : Plugin) (uninit_time : Z)
  (uninit_timef : float) : ImGuiPluginDSP :=
  let ft0 := fut_lpmoog in
  let fst0 := st_lpmoog_6dB in
  {| base := plugin;
     fSampleRate := getSampleRate plugin;
     fGainDB := F32.zero;
     fGainLinear := F32.one;
     fSmoothGain := CParamSmooth_new lit_20_0f (getSampleRate plugin);
     fFreqNote := F32.zero;
     FUnit := GetQFPtrFilterUnit ft0 fst0;
     coeffMaker := FilterCoefficientMaker_new;
     filterState := QuadFilterUnitState_zero;
     ft := ft0;
     fst_ := fst0;
     time := to_uint64 uninit_time;
     timef := uninit_timef;
     sin_prec :=
       F32.of_double
         (F64.mul (F64.mul (F64.of_Z 2) M_PI) (F64.of_float lit_440_0f)) |}.

Definition coeffMaker_setSampleRateAndBlockSize (sr : float) (bs : Z)
  : M World unit :=
  emit (Call_setSampleRateAndBlockSize sr bs) ;;
  cm <- this coeffMaker ;;
  assign (set_coeffMaker (setSampleRateAndBlockSize sr bs cm)).

Definition coeffMaker_MakeCoeffs (Freq Reso : float) (type : FilterType)
  (subtype : FilterSubType) (tuningAdjusted : bool) : M World unit :=
  emit (Call_MakeCoeffs Freq Reso) ;;
  cm <- this coeffMaker ;;
  assign (set_coeffMaker (MakeCoeffs Freq Reso type subtype tuningAdjusted cm)).

Definition coeffMaker_updateState : M World unit :=
  emit Call_updateState ;;
  cm <- this coeffMaker ;;
  fs <- this filterState ;;
  assign (set_filterState (updateState cm fs)).

Definition fSmoothGain_flush : M World unit :=
  emit Call_flush ;;
  sm <- this fSmoothGain ;;
  assign (set_fSmoothGain (flush sm)).

Definition fSmoothGain_setSampleRate (sr : double) : M World unit :=
  emit (Call_setSampleRate sr) ;;
  sm <- this fSmoothGain ;;
  assign (set_fSmoothGain (setSampleRate sr sm)).

Definition fSmoothGain_process (target : float) : M World float :=
  emit (Call_process target) ;;
  sm <- this fSmoothGain ;;
  let '(out, sm') := process target sm in
  assign (set_fSmoothGain sm') ;;
  ret out.

(** [FUnit(&filterState, in)]; the [DB] pointers of this variant are never
    set, so the unit reaches no delay line. *)
Definition call_FUnit (input : vec4) : M World vec4 :=
  emit (Call_FUnit input) ;;
  f <- this FUnit ;;
  fs <- this filterState ;;
  let '(out, fs', _) := f fs [] input in
  assign (set_filterState fs') ;;
  ret out.

Definition initParameter (index : Z) (parameter : DistrhoParameter) : DistrhoParameter :=
  match index with
  | 0%Z =>
      {| ranges := {| ParameterRanges.min := lit_m90_0f; ParameterRanges.max := lit_30_0f;
                     ParameterRanges.def := lit_m0_0f |};
         hints_automatable := true;
         name := "Gain"; shortName := "Gain"; symbol := "gain"; unit_ := "dB" |}
  | 1%Z =>
      {| ranges := {| ParameterRanges.min := lit_m60_0f; ParameterRanges.max := lit_64_0f;
                     ParameterRanges.def := lit_m12_0f |};
         hints_automatable := true;
         name := "FrequencyNote"; shortName := "FrequencyNote";
         symbol := "frequencynote"; unit_ := "" |}
  | _ => parameter
  end%string.

Definition getParameterValue (index : Z) : M World float :=
  match index with
  | 0%Z => this fGainDB
  | 1%Z => this fFreqNote
  | _ => ret (F32.of_double lit_0_0)
  end.

Definition setParameterValue (index : Z) (value : float) : M World unit :=
  match index with
  | 0%Z =>
      assign (set_fGainDB value) ;;
      assign (set_fGainLinear
                (DB_CO (CLAMP (F64.of_float value) lit_m90_0 lit_30_0)))
  | 1%Z =>
      assign (set_fFreqNote value) ;;
      v <- this fFreqNote ;;
      emit (Stdout "New freq note: %f"%string v) ;;
      freq <- this fFreqNote ;;
      type <- this ft ;;
      subtype <- this fst_ ;;
      coeffMaker_MakeCoeffs freq (F32.of_double lit_0_2) type subtype false ;;
      coeffMaker_updateState
  | _ => ret tt
  end.

Definition activate : M World unit :=
  fSmoothGain_flush ;;
  b <- this base ;;
  coeffMaker_setSampleRateAndBlockSize
    (F32.of_double (getSampleRate b)) (getBufferSize b) ;;
  type <- this ft ;;
  subtype <- this fst_ ;;
  coeffMaker_MakeCoeffs (F32.of_double lit_m12_0) (F32.of_double lit_0_2)
    type subtype false ;;
  coeffMaker_updateState.

(** The body of the sample loop of [run]; [s] is the test tone sample. *)
Definition run_sample (outL outR : nat) (i : nat) : M World unit :=
  t <- this time ;;
  assign (set_time (to_uint64 (t + 1))) ;;
  t <- this time ;;
  b <- this base ;;
  assign (set_timef (F32.of_double (F64.div (F64.of_Z t) (getSampleRate b)))) ;;
  sp <- this sin_prec ;;
  tf <- this timef ;;
  let s := F32.of_double
             (F64.mul lit_0_25 (F64.of_float (sinf (F32.mul sp tf)))) in
  target <- this fGainLinear ;;
  gain <- fSmoothGain_process target ;;
  yVec <- call_FUnit (_mm_set_ps1 s) ;;
  let yArr0 := lane0 yVec in
  store (outL + i) (F32.mul yArr0 gain) ;;
  store (outR + i) (F32.mul s gain).

Definition run (inputs outputs : nat -> nat) (frames : nat) : M World unit :=
  let inpL := inputs 0 in
  let inpR := inputs 1 in
  let outL := outputs 0 in
  let outR := outputs 1 in
  for_from 0 frames (run_sample outL outR).

Definition sampleRateChanged (newSampleRate : double) : M World unit :=
  assign (set_fSampleRate newSampleRate) ;;
  fSmoothGain_setSampleRate newSampleRate.
End WithLibraries.
End GainOnly.

(** ** Reference sequences of the sample loop

    What the filter unit returns and what the smoother returns at sample
    [i], as a recurrence over the members the loop changes, for a given
    sequence of filter inputs. *)

Definition disjoint (a n b m : nat) : Prop := a + n <= b \/ b + m <= a.

(** The four floats at [a .. a+3]. *)
Definition window (m : memory) (a : nat) : vec4 :=
  Vec4 (m a) (m (a + 1)) (m (a + 2)) (m (a + 3)).

Module FilteredRef.
Section WithLibraries.
Context {libm : Libm} {sst : SstFilters} {smooth : ParamSmooth}.
Import Filtered.

(** One sample: filter unit first, then the smoother. *)
Definition dsp_step (p : ImGuiPluginDSP) (x : vec4)
  : vec4 * float * ImGuiPluginDSP :=
  let r := FUnit p (filterState p) (delayBuffer p) x in
  let g := process (fGainLinear p) (fSmoothGain p) in
  (fst (fst r), fst g,
   set_fSmoothGain (snd g) (set_delayBuffer (snd r) (set_filterState (snd (fst r)) p))).

(** The object as it is when sample [i] starts. *)
Fixpoint dsp_at (p : ImGuiPluginDSP) (input : nat -> vec4) (i : nat)
  : ImGuiPluginDSP :=
  match i with
  | O => p
  | S j => snd (dsp_step (dsp_at p input j) (input j))
  end.

Definition filt_at p input i : vec4 :=
  fst (fst (dsp_step (dsp_at p input i) (input i))).
Definition gain_at p input i : float :=
  snd (fst (dsp_step (dsp_at p input i) (input i))).

(** The host's buffers as [run] uses them: the 4-wide accesses reach three
    floats past [frames] on the left input and the left output. *)
Definition separated (inpL outL outR frames : nat) : Prop :=
  disjoint inpL (frames + 3) outL (frames + 3) /\
  disjoint inpL (frames + 3) outR frames /\
  disjoint outL (frames + 3) outR frames.

(** The coefficient maker as the copy loop leaves it. *)
Definition copied (w : World) : CoeffMaker :=
  coeffMaker (self (final (for_from 0 n_cm_coeffs copy_coefficient w))).

(** The world when the sample loop starts. *)
Definition prepared (w : World) : World :=
  let p := self w in
  let cm := MakeCoeffs (fFreqNote p) (fResonance p) (ft p) (fst_ p) false
              (copied w) in
  Build_World
    (set_filterState (updateState cm (filterState p)) (set_coeffMaker cm p))
    (mem w).

(** An address the first [k] iterations have stored to. *)
Definition written (outL outR k a : nat) : Prop :=
  (exists i, i < k /\ outL + i <= a < outL + i + 4) \/
  (exists i, i < k /\ a = outR + i).

(** Two memories that differ at most inside [base .. base+n-1]. *)
Definition agree_outside (m1 m2 : memory) (base n : nat) : Prop :=
  forall a, ~ (base <= a < base + n) -> m1 a = m2 a.
End WithLibraries.
End FilteredRef.

Module GainOnlyRef.
Section WithLibraries.
Context {libm : Libm} {sst : SstFilters} {smooth : ParamSmooth}.
Import GainOnly.

(** The test tone sample computed from the sample counter [t]. *)
Definition tone (p : ImGuiPluginDSP) (t : Z) : float :=
  let tf := F32.of_double (F64.div (F64.of_Z t) (getSampleRate (base p))) in
  F32.of_double (F64.mul lit_0_25 (F64.of_float (sinf (F32.mul (sin_prec p) tf)))).

(** One sample: counter, tone, smoother, then the filter unit on the tone. *)
Definition dsp_step (p : ImGuiPluginDSP)
  : float * vec4 * float * ImGuiPluginDSP :=
  let t := to_uint64 (time p + 1) in
  let tf := F32.of_double (F64.div (F64.of_Z t) (getSampleRate (base p))) in
  let s := tone p t in
  let g := process (fGainLinear p) (fSmoothGain p) in
  let r := FUnit p (filterState p) [] (_mm_set_ps1 s) in
  (s, fst (fst r), fst g,
   set_filterState (snd (fst r))
     (set_fSmoothGain (snd g) (set_timef tf (set_time t p)))).

Fixpoint dsp_at (p : ImGuiPluginDSP) (i : nat) : ImGuiPluginDSP :=
  match i with
  | O => p
  | S j => snd (dsp_step (dsp_at p j))
  end.

Definition tone_at p i : float := fst (fst (fst (dsp_step (dsp_at p i)))).
Definition filt_at p i : vec4 := snd (fst (fst (dsp_step (dsp_at p i)))).
Definition gain_at p i : float := snd (fst (dsp_step (dsp_at p i))).
End WithLibraries.
End GainOnlyRef.

(** ** The filter state after a register reset *)

(** The arrays of a [QuadFilterUnitState] have their declared sizes. *)
Definition sized `{SstFilters} (fs : QuadState) : Prop :=
  List.length (QuadFilterUnitState.C fs) = n_cm_coeffs /\
  List.length (QuadFilterUnitState.R fs) = n_filter_registers /\
  List.length (QuadFilterUnitState.DB fs) = 4 /\
  List.length (QuadFilterUnitState.active fs) = 4 /\
  List.length (QuadFilterUnitState.WP fs) = 4.

(** The filter state as [resetFilterRegisters] leaves it: registers and
    coefficients zero, write positions zero, every lane active, every [DB]
    pointer at the start of its delay line. *)
Definition registers_reset `{SstFilters} (fs : QuadState) : QuadState :=
  QuadFilterUnitState.Build
    (repeat _mm_setzero_ps n_cm_coeffs)
    (repeat _mm_setzero_ps n_filter_registers)
    [delayBuffer_at 0 0; delayBuffer_at 1 0; delayBuffer_at 2 0; delayBuffer_at 3 0]
    [(-1)%Z; (-1)%Z; (-1)%Z; (-1)%Z]
    [0%Z; 0%Z; 0%Z; 0%Z]
    (QuadFilterUnitState.others fs).

(** ** Predicates on event logs and values *)

Definition is_MakeCoeffs (e : event) : bool :=
  match e with Call_MakeCoeffs _ _ => true | _ => false end.

Definition is_flush (e : event) : bool :=
  match e with Call_flush => true | _ => false end.


(** The address a memory event touches. *)
Definition touched (e : event) : option nat :=
  match e with
  | Load a => Some a
  | Store a _ => Some a
  | _ => None
  end.

(** Every memory event of the log stays inside one of the given buffers,
    each [frames] floats long. *)
Definition within_buffers (bases : list nat) (frames : nat) (es : list event) : bool :=
  forallb (fun e =>
    match touched e with
    | Some a => existsb (fun b => Nat.leb b a && Nat.ltb a (b + frames)) bases
    | None => true
    end) es.

(** [lo <= v <= hi] as doubles. *)
Definition in_range (lo hi v : double) : bool := F64.le lo v && F64.le v hi.

Definition is_zero (x : float) : bool :=
  match x with S754_zero _ => true | _ => false end.
Definition all_zero (v : vec4) : bool :=
  is_zero (lane0 v) && is_zero (lane1 v) && is_zero (lane2 v) && is_zero (lane3 v).

(** [v] lies in the range a parameter descriptor declares. *)
Definition in_declared_range (d : DistrhoParameter) (v : float) : bool :=
  in_range (F64.of_float (ParameterRanges.min (ranges d)))
           (F64.of_float (ParameterRanges.max (ranges d)))
           (F64.of_float v).

(** ** Stand-ins for the libraries, to run the embedding on concrete inputs *)

Module Stub.
(** [powf(x, 0) = 1] as C requires; otherwise the base. *)
Definition libm : Libm :=
  {| powf := fun x y => match y with S754_zero _ => F32.one | _ => x end;
     sinf := fun x => x |}.

(** A coefficient maker that keeps the last (Freq, Reso) pair in its first
    two coefficients, and a filter unit that accumulates its input in
    register 0. *)
Definition sst : SstFilters :=
  {| n_cm_coeffs := 8;
     n_filter_registers := 16;
     MAX_FB_COMB := 2048;
     FIRipol_N := 12;
     FilterType := nat;
     FilterSubType := Z;
     fut_lpmoog := 0;
     fut_vintageladder := 1;
     st_lpmoog_6dB := 0%Z;
     FilterSubType_of_int := fun z => z;
     QuadOthers := unit;
     QuadOthers_zero := tt;
     CoeffInternals := float * Z;
     FilterCoefficientMaker_new :=
       FilterCoefficientMaker.Build (repeat F32.zero 8) (F32.zero, 0%Z);
     Reset := fun cm =>
       FilterCoefficientMaker.Build (repeat F32.zero 8)
         (FilterCoefficientMaker.internals cm);
     setSampleRateAndBlockSize := fun sr bs cm =>
       FilterCoefficientMaker.Build (FilterCoefficientMaker.C cm) (sr, bs);
     MakeCoeffs := fun Freq Reso _ _ _ cm =>
       FilterCoefficientMaker.Build
         (array_set 0 Freq (array_set 1 Reso (FilterCoefficientMaker.C cm)))
         (FilterCoefficientMaker.internals cm);
     updateState := fun cm fs =>
       QuadFilterUnitState.Build
         (map _mm_set_ps1 (FilterCoefficientMaker.C cm))
         (QuadFilterUnitState.R fs) (QuadFilterUnitState.DB fs)
         (QuadFilterUnitState.active fs) (QuadFilterUnitState.WP fs)
         (QuadFilterUnitState.others fs);
     GetQFPtrFilterUnit := fun _ _ fs db x =>
       let r0 := nth 0 (QuadFilterUnitState.R fs) _mm_setzero_ps in
       let y := Vec4 (F32.add (lane0 r0) (lane0 x)) (F32.add (lane1 r0) (lane1 x))
                     (F32.add (lane2 r0) (lane2 x)) (F32.add (lane3 r0) (lane3 x)) in
       (y,
        QuadFilterUnitState.Build
          (QuadFilterUnitState.C fs) (array_set 0 y (QuadFilterUnitState.R fs))
          (QuadFilterUnitState.DB fs) (QuadFilterUnitState.active fs)
          (QuadFilterUnitState.WP fs) (QuadFilterUnitState.others fs),
        db) |}.

(** A smoother that moves half of the way to the target on each call. *)
Definition smooth : ParamSmooth :=
  {| CParamSmooth := float;
     CParamSmooth_new := fun _ _ => F32.zero;
     setSampleRate := fun _ z => z;
     flush := fun _ => F32.zero;
     process := fun target z =>
       let z' := F32.mul lit_0_5f (F32.add target z) in (z', z') |}.

Definition host : Plugin :=
  {| getSampleRate := F64.of_Z 48000; getBufferSize := 128 |}.

(** Host memory holding 1.0, 2.0, 3.0, ... at addresses 0, 1, 2, ... *)
Definition ramp : memory := fun a => F32.of_Z (Z.of_nat a + 1).

(** The same memory with 100.0 at address 4. *)
Definition ramp_with_100_at_4 : memory :=
  fun a => if Nat.eqb a 4 then F32.of_Z 100 else ramp a.

(** Buffer layouts: left input, right input, left output, right output. *)
Definition inputs_at (inpL inpR : nat) : nat -> nat :=
  fun k => match k with O => inpL | _ => inpR end.
Definition outputs_at (outL outR : nat) : nat -> nat :=
  fun k => match k with O => outL | _ => outR end.

(** A delay store with something in it. *)
Definition stale_delay : delay_store := repeat [F32.one; F32.one] 4.

Definition filtered0 : Filtered.World :=
  Filtered.Build_World
    (@Filtered.ImGuiPluginDSP_new sst smooth host stale_delay) ramp.

Definition gainonly0 : GainOnly.World :=
  GainOnly.Build_World
    (@GainOnly.ImGuiPluginDSP_new sst smooth host 0 F32.zero) ramp.
End Stub.

(** ** A change of sample rate on the stand-ins

    The plugin has processed two frames at 48 kHz; then the host moves to
    96 kHz with blocks of 256 frames.  The smoother stand-in of this module
    starts over when it is given a sample rate. *)

Module RateChange.
(** [Stub.smooth] with a [setSampleRate] that leaves the state as [flush]
    leaves it. *)
Definition smooth : ParamSmooth :=
  {| CParamSmooth := float;
     CParamSmooth_new := fun _ _ => F32.zero;
     setSampleRate := fun _ _ => F32.zero;
     flush := fun _ => F32.zero;
     process := fun target z =>
       let z' := F32.mul lit_0_5f (F32.add target z) in (z', z') |}.





End RateChange.

(** ** Sequences of host calls

    The host drives a plugin through its callbacks in any order; a call
    sequence is run from left to right, each call on the world the previous
    one left. *)

Module FilteredHost.
Section WithLibraries.
Context {libm : Libm} {sst : SstFilters} {smooth : ParamSmooth}.
Import Filtered.

Inductive call :=
| GetParameterValue (index : Z)
| SetParameterValue (index : Z) (value : float)
| Activate
| Run (inputs outputs : nat -> nat) (frames : nat)
| SampleRateChanged (newSampleRate : double).

Definition exec (c : call) (w : World) : World :=
  match c with
  | GetParameterValue index => final (getParameterValue index w)
  | SetParameterValue index v => final (setParameterValue index v w)
  | Activate => final (activate w)
  | Run inputs outputs frames => final (run inputs outputs frames w)
  | SampleRateChanged sr => final (sampleRateChanged sr w)
  end.

Definition exec_all (cs : list call) (w : World) : World :=
  fold_left (fun w c => exec c w) cs w.

(** The value the last [setParameterValue(index, .)] of the sequence wrote,
    or [init] when the sequence has none. *)
Definition last_written (index : Z) (cs : list call) (init : float) : float :=
  fold_left
    (fun v c =>
       match c with
       | SetParameterValue i x => if Z.eqb i index then x else v
       | _ => v
       end) cs init.

(** The linear gain is the conversion of the stored decibel value. *)
Definition gain_cached (p : ImGuiPluginDSP) : Prop :=
  fGainLinear p = DB_CO (CLAMP (F64.of_float (fGainDB p)) lit_m90_0 lit_30_0).
End WithLibraries.
End FilteredHost.

Module GainOnlyHost.
Section WithLibraries.
Context {libm : Libm} {sst : SstFilters} {smooth : ParamSmooth}.
Import GainOnly.

Inductive call :=
| GetParameterValue (index : Z)
| SetParameterValue (index : Z) (value : float)
| Activate
| Run (inputs outputs : nat -> nat) (frames : nat)
| SampleRateChanged (newSampleRate : double).

Definition exec (c : call) (w : World) : World :=
  match c with
  | GetParameterValue index => final (getParameterValue index w)
  | SetParameterValue index v => final (setParameterValue index v w)
  | Activate => final (activate w)
  | Run inputs outputs frames => final (run inputs outputs frames w)
  | SampleRateChanged sr => final (sampleRateChanged sr w)
  end.

Definition exec_all (cs : list call) (w : World) : World :=
  fold_left (fun w c => exec c w) cs w.

Definition last_written (index : Z) (cs : list call) (init : float) : float :=
  fold_left
    (fun v c =>
       match c with
       | SetParameterValue i x => if Z.eqb i index then x else v
       | _ => v
       end) cs init.

Definition gain_cached (p : ImGuiPluginDSP) : Prop :=
  fGainLinear p = DB_CO (CLAMP (F64.of_float (fGainDB p)) lit_m90_0 lit_30_0).
End WithLibraries.
End GainOnlyHost.

(** ** More predicates on event logs *)

Definition is_FUnit_call (e : event) : bool :=
  match e with Call_FUnit _ => true | _ => false end.

Definition is_process_call (e : event) : bool :=
  match e with Call_process _ => true | _ => false end.

Definition is_Load (e : event) : bool :=
  match e with Load _ => true | _ => false end.

(** [base <= a < base + n] *)
Definition in_block (base n a : nat) : bool :=
  Nat.leb base a && Nat.ltb a (base + n).

(** The memory events the filtered [run] may make: loads in the left input
    and its three following floats, stores in the left output and its three
    following floats or in the right output. *)
Definition in_filtered_footprint (inpL outL outR frames : nat) (e : event) : bool :=
  match e with
  | Load a => in_block inpL (frames + 3) a
  | Store a _ => in_block outL (frames + 3) a || in_block outR frames a
  | _ => true
  end.

(** A double that is not a NaN. *)
Definition is_number (x : double) : bool :=
  match x with S754_nan => false | _ => true end.

(** * Properties *)

(** ** The literals are the numbers they stand for *)

Example lit_m90_0_is : lit_m90_0 = F64.of_Z (-90).
Proof. reflexivity. Qed.
Example lit_30_0_is : lit_30_0 = F64.of_Z 30.
Proof. reflexivity. Qed.
Example lit_m90_0f_is : lit_m90_0f = F32.of_Z (-90).
Proof. reflexivity. Qed.
Example lit_10_0f_is : lit_10_0f = F32.of_Z 10.
Proof. reflexivity. Qed.
Example lit_0_05f_is : lit_0_05f = F32.div (F32.of_Z 1) (F32.of_Z 20).
Proof. reflexivity. Qed.
Example lit_0_2_is : lit_0_2 = F64.div (F64.of_Z 1) (F64.of_Z 5).
Proof. reflexivity. Qed.
Example one_is : F32.one = F32.of_Z 1.
Proof. reflexivity. Qed.
Example M_PI_is :
  M_PI = F64.div (F64.of_Z 3141592653589793) (F64.of_Z 1000000000000000).
Proof. reflexivity. Qed.
Example promote_m90 : F64.of_float lit_m90_0f = lit_m90_0.
Proof. reflexivity. Qed.

(** ** Parameter access *)

Section ParameterAccess.
Context {libm : Libm} {sst : SstFilters} {smooth : ParamSmooth}.

(** C9: for an index at or above [kParamCount], [getParameterValue]
    returns 0.0 and [setParameterValue] changes nothing (no member, no
    memory, no call, no output), in both variants. *)
Theorem parameter_index_out_of_range :
  forall (index : Z) (value : float),
    (forall w : Filtered.World,
        (Filtered.kParamCount <= index)%Z ->
        Filtered.getParameterValue index w = (F32.zero, w, []) /\
        Filtered.setParameterValue index value w = (tt, w, [])) /\
    (forall w : GainOnly.World,
        (GainOnly.kParamCount <= index)%Z ->
        GainOnly.getParameterValue index w = (F32.zero, w, []) /\
        GainOnly.setParameterValue index value w = (tt, w, [])).
Proof.
  intros index value; split; intros w Hidx.
  - unfold Filtered.kParamCount in Hidx.
    destruct index as [|p|p]; try lia.
    destruct p as [[q|q|]|[q|q|]|]; try lia; split; reflexivity.
  - unfold GainOnly.kParamCount in Hidx.
    destruct index as [|p|p]; try lia.
    destruct p as [q|q|]; try lia; split; reflexivity.
Qed.

(** C6: writing -90 dB to the Gain parameter gives a linear gain of
    exactly 0.0; writing 0 dB gives 1.0, given that libm's [powf] returns 1
    for a zero exponent. *)
Theorem gain_conversion_floor_and_unity :
  powf lit_10_0f F32.zero = F32.one ->
  (forall w : Filtered.World,
      Filtered.fGainLinear
        (Filtered.self (final (Filtered.setParameterValue 0 lit_m90_0f w)))
      = F32.zero /\
      Filtered.fGainLinear
        (Filtered.self (final (Filtered.setParameterValue 0 F32.zero w)))
      = F32.one) /\
  (forall w : GainOnly.World,
      GainOnly.fGainLinear
        (GainOnly.self (final (GainOnly.setParameterValue 0 lit_m90_0f w)))
      = F32.zero /\
      GainOnly.fGainLinear
        (GainOnly.self (final (GainOnly.setParameterValue 0 F32.zero w)))
      = F32.one).
Proof.
  intros Hpow; split; intros w; split; cbn; try reflexivity; exact Hpow.
Qed.
End ParameterAccess.

(** C9 at index 7 on the stand-in plugin. *)
Lemma parameter_index_out_of_range_witness :
  Filtered.getParameterValue (sst := Stub.sst) (smooth := Stub.smooth) 7 Stub.filtered0
  = (F32.zero, Stub.filtered0, []) /\
  GainOnly.setParameterValue (libm := Stub.libm) (sst := Stub.sst)
    (smooth := Stub.smooth) 7 F32.one Stub.gainonly0
  = (tt, Stub.gainonly0, []).
Proof.
  split.
  - apply (@parameter_index_out_of_range Stub.libm Stub.sst Stub.smooth 7 F32.one).
    unfold Filtered.kParamCount; lia.
  - apply (@parameter_index_out_of_range Stub.libm Stub.sst Stub.smooth 7 F32.one).
    unfold GainOnly.kParamCount; lia.
Defined.

(** C6 with the stand-in [powf]. *)
Lemma gain_conversion_floor_and_unity_witness :
  @powf Stub.libm lit_10_0f F32.zero = F32.one /\
  Filtered.fGainLinear
    (Filtered.self
       (final (Filtered.setParameterValue (libm := Stub.libm) 0 lit_m90_0f
                 Stub.filtered0)))
  = F32.zero.
Proof.
  split; [reflexivity|].
  apply (@gain_conversion_floor_and_unity Stub.libm Stub.sst Stub.smooth).
  reflexivity.
Defined.

(** ** Loops *)

Section Loops.
Variable St : Type.
Implicit Types (body : nat -> M St unit) (s : St).

Lemma for_from_S_final start n body s :
  final (for_from start (S n) body s)
  = final (for_from (S start) n body (final (body start s))).
Proof.
  cbn [for_from]; unfold bind, final.
  destruct (body start s) as [[u s1] e1]; cbn.
  destruct (for_from (S start) n body s1) as [[u2 s2] e2]; reflexivity.
Qed.

Lemma for_from_S_events start n body s :
  events (for_from start (S n) body s)
  = events (body start s)
    ++ events (for_from (S start) n body (final (body start s))).
Proof.
  cbn [for_from]; unfold bind, final, events.
  destruct (body start s) as [[u s1] e1]; cbn.
  destruct (for_from (S start) n body s1) as [[u2 s2] e2]; reflexivity.
Qed.

(** The last iteration split off. *)
Lemma for_from_snoc_final n : forall start body s,
  final (for_from start (S n) body s)
  = final (body (start + n) (final (for_from start n body s))).
Proof.
  induction n as [|n IH]; intros start body s.
  - rewrite for_from_S_final, Nat.add_0_r; reflexivity.
  - rewrite for_from_S_final, IH, (for_from_S_final start n).
    replace (S start + n) with (start + S n) by lia; reflexivity.
Qed.

Lemma for_from_snoc_events n : forall start body s,
  events (for_from start (S n) body s)
  = events (for_from start n body s)
    ++ events (body (start + n) (final (for_from start n body s))).
Proof.
  induction n as [|n IH]; intros start body s.
  - rewrite for_from_S_events, Nat.add_0_r; cbn; rewrite app_nil_r; reflexivity.
  - rewrite for_from_S_events, IH, (for_from_S_events start n),
      (for_from_S_final start n), app_assoc.
    replace (S start + n) with (start + S n) by lia; reflexivity.
Qed.

(** A property of the state that every iteration keeps is kept by the loop. *)
Lemma for_from_invariant (P : St -> Prop) body :
  (forall i s, P s -> P (final (body i s))) ->
  forall n start s, P s -> P (final (for_from start n body s)).
Proof.
  intros Hbody n; induction n as [|n IH]; intros start s Hs.
  - exact Hs.
  - rewrite for_from_S_final; apply IH, Hbody, Hs.
Qed.

(** A property that holds of every event of every iteration holds of every
    event of the loop. *)
Lemma for_from_events_forall (Q : event -> bool) body :
  (forall i s, forallb Q (events (body i s)) = true) ->
  forall n start s, forallb Q (events (for_from start n body s)) = true.
Proof.
  intros Hbody n; induction n as [|n IH]; intros start s.
  - reflexivity.
  - rewrite for_from_S_events, forallb_app, Hbody, IH; reflexivity.
Qed.
End Loops.

(** ** The sample loop, one iteration at a time *)


Section FilteredSample.
Context {libm : Libm} {sst : SstFilters} {smooth : ParamSmooth}.
Import Filtered FilteredRef.

(** One iteration of the filtered loop: state, memory and log. *)
Lemma run_sample_spec inpL outL outR i (w : World) :
  let x := window (mem w) (inpL + i) in
  let d := dsp_step (self w) x in
  let filt := fst (fst d) in
  let gain := snd (fst d) in
  let post := _mm_mul_ps filt (_mm_set_ps1 gain) in
  let m1 := store4 (mem w) (outL + i) post in
  run_sample inpL outL outR i w
  = (tt,
     Build_World (snd d)
       (mem_store m1 (outR + i) (F32.mul (m1 (inpL + i)) gain)),
     [Load (inpL + i); Load (inpL + i + 1); Load (inpL + i + 2);
      Load (inpL + i + 3);
      Call_FUnit x; Call_process (fGainLinear (self w));
      Store (outL + i) (lane0 post); Store (outL + i + 1) (lane1 post);
      Store (outL + i + 2) (lane2 post); Store (outL + i + 3) (lane3 post);
      Load (inpL + i);
      Store (outR + i) (F32.mul (m1 (inpL + i)) gain)]).
Proof.
  unfold run_sample, dsp_step, _mm_loadu_ps, _mm_storeu_ps, call_FUnit,
    fSmoothGain_process, load, store, this, assign, bind, gets, modify,
    emit, ret, window, store4.
  cbn.
  destruct (FUnit (self w) (filterState (self w)) (delayBuffer (self w)) _)
    as [[out fs'] db'].
  cbn.
  destruct (process (fGainLinear (self w)) (fSmoothGain (self w)))
    as [g sm'].
  cbn. reflexivity.
Qed.

(** The coefficient copy at the head of [run] only writes [coeffMaker]. *)
Lemma copy_loop_spec n : forall start (w : World),
  exists cm,
    for_from start n copy_coefficient w
    = (tt, Build_World (set_coeffMaker cm (self w)) (mem w), []).
Proof.
  induction n as [|n IH]; intros start w.
  - exists (coeffMaker (self w)).
    destruct w as [p m]; destruct p; reflexivity.
  - cbn [for_from]. unfold bind at 1.
    unfold copy_coefficient at 1, this, assign, bind, gets, modify; cbn.
    match goal with
    | |- context [for_from (S start) n copy_coefficient ?w1] =>
        destruct (IH (S start) w1) as [cm Hcm]; rewrite Hcm
    end.
    exists cm; reflexivity.
Qed.


Lemma run_prepare_spec (w : World) :
  run_prepare w
  = (tt, FilteredRef.prepared w,
     [Call_MakeCoeffs (fFreqNote (self w)) (fResonance (self w));
      Call_updateState]).
Proof.
  unfold FilteredRef.prepared, FilteredRef.copied, run_prepare.
  unfold bind at 1.
  destruct (copy_loop_spec n_cm_coeffs 0 w) as [cm Hcm]; rewrite Hcm.
  reflexivity.
Qed.

Lemma run_spec inputs outputs frames (w : World) :
  let loop := for_from 0 frames
                (run_sample (inputs 0) (outputs 0) (outputs 1)) (FilteredRef.prepared w) in
  final (run inputs outputs frames w) = final loop /\
  events (run inputs outputs frames w)
  = Call_MakeCoeffs (fFreqNote (self w)) (fResonance (self w))
    :: Call_updateState :: events loop.
Proof.
  unfold run, bind; rewrite run_prepare_spec.
  destruct (for_from 0 frames _ (FilteredRef.prepared w)) as [[u w2] e2]; split; reflexivity.
Qed.
End FilteredSample.

Section GainOnlySample.
Context {libm : Libm} {sst : SstFilters} {smooth : ParamSmooth}.
Import GainOnly GainOnlyRef.

(** One iteration of the gain-only loop: state, memory and log. *)
Lemma gain_only_run_sample_spec outL outR i (w : World) :
  let d := dsp_step (self w) in
  let s := fst (fst (fst d)) in
  let y := snd (fst (fst d)) in
  let gain := snd (fst d) in
  run_sample outL outR i w
  = (tt,
     Build_World (snd d)
       (mem_store (mem_store (mem w) (outL + i) (F32.mul (lane0 y) gain))
          (outR + i) (F32.mul s gain)),
     [Call_process (fGainLinear (self w)); Call_FUnit (_mm_set_ps1 s);
      Store (outL + i) (F32.mul (lane0 y) gain);
      Store (outR + i) (F32.mul s gain)]).
Proof.
  unfold run_sample, dsp_step, tone, call_FUnit, fSmoothGain_process, store,
    this, assign, bind, gets, modify, emit, ret.
  cbn.
  destruct (process (fGainLinear (self w)) (fSmoothGain (self w)))
    as [g sm'].
  cbn.
  destruct (FUnit (self w) (filterState (self w)) [] _) as [[out fs'] db'].
  cbn. reflexivity.
Qed.

(** The gain-only loop never calls the coefficient maker and leaves it and
    the parameters as they were. *)
Lemma gain_only_loop_keeps_coefficients outL outR n : forall start (w : World),
  let r := for_from start n (run_sample outL outR) w in
  coeffMaker (self (final r)) = coeffMaker (self w) /\
  existsb is_MakeCoeffs (events r) = false.
Proof.
  induction n as [|n IH]; intros start w.
  - split; reflexivity.
  - cbn zeta. rewrite for_from_S_final, for_from_S_events, existsb_app.
    destruct (IH (S start) (final (run_sample outL outR start w))) as [Hcm Hev].
    rewrite Hcm, Hev, gain_only_run_sample_spec. split; reflexivity.
Qed.
End GainOnlySample.

(** ** Activation, sample rate changes and the coefficient recomputation *)


Section Lifecycle.
Context {libm : Libm} {sst : SstFilters} {smooth : ParamSmooth}.

Lemma std_fill_all {A} (a : list A) n v :
  List.length a = n -> std_fill a n v = repeat v n.
Proof.
  intros <-. unfold std_fill. rewrite skipn_all, app_nil_r. reflexivity.
Qed.

Lemma resetFilterRegisters_spec (w : Filtered.World) :
  sized (Filtered.filterState (Filtered.self w)) ->
  Filtered.resetFilterRegisters w
  = (tt,
     Filtered.Build_World
       (Filtered.set_filterState
          (registers_reset (Filtered.filterState (Filtered.self w)))
          (Filtered.set_coeffMaker
             (Reset (Filtered.coeffMaker (Filtered.self w))) (Filtered.self w)))
       (Filtered.mem w),
     [Call_Reset]).
Proof.
  intros (HC & HR & HDB & Hact & HWP).
  destruct w as [[b sr gdb gl sm fn fr fu cm [C0 R0 DB0 act0 WP0 oth] t st dp db] m].
  cbn in *.
  destruct DB0 as [|d0 [|d1 [|d2 [|d3 [|]]]]]; try discriminate.
  destruct act0 as [|a0 [|a1 [|a2 [|a3 [|]]]]]; try discriminate.
  destruct WP0 as [|p0 [|p1 [|p2 [|p3 [|]]]]]; try discriminate.
  unfold Filtered.resetFilterRegisters, Filtered.coeffMaker_Reset,
    Filtered.on_filterState, Filtered.this, Filtered.assign, bind, gets,
    modify, emit, ret, registers_reset.
  cbn.
  rewrite (std_fill_all _ _ HC), (std_fill_all _ _ HR).
  reflexivity.
Qed.
End Lifecycle.

Section LifecycleClaims.
Context {libm : Libm} {sst : SstFilters} {smooth : ParamSmooth}.

(** What [activate] of the gain-only variant does: no reset, and the
    coefficients are made from the literals -12.0 and 0.2, not from
    [fFreqNote]. *)
Lemma gain_only_activate_spec (w : GainOnly.World) :
  let p := GainOnly.self w in
  let r := GainOnly.activate w in
  let p' := GainOnly.self (final r) in
  let sr := F32.of_double (getSampleRate (GainOnly.base p)) in
  let bs := getBufferSize (GainOnly.base p) in
  events r
  = [Call_flush; Call_setSampleRateAndBlockSize sr bs;
     Call_MakeCoeffs (F32.of_double lit_m12_0) (F32.of_double lit_0_2);
     Call_updateState] /\
  GainOnly.fSmoothGain p' = flush (GainOnly.fSmoothGain p) /\
  GainOnly.coeffMaker p'
  = MakeCoeffs (F32.of_double lit_m12_0) (F32.of_double lit_0_2)
      (GainOnly.ft p) (GainOnly.fst_ p) false
      (setSampleRateAndBlockSize sr bs (GainOnly.coeffMaker p)) /\
  GainOnly.filterState p'
  = updateState (GainOnly.coeffMaker p') (GainOnly.filterState p) /\
  GainOnly.fFreqNote p' = GainOnly.fFreqNote p.
Proof. cbn. repeat split; reflexivity. Qed.

(** C5, as the code has it: [activate] flushes the gain smoother in both
    variants.  The filtered variant then resets the coefficient maker,
    zeroes the R and C registers and the write positions, marks the four
    lanes active and points [DB] at the delay lines, whose contents (like
    the host memory) stay as they are; it configures the coefficient maker
    with the host's sample rate and buffer size, recomputes the
    coefficients from the current [fFreqNote] and [fResonance] and pushes
    them into the filter state.  The gain-only variant zeroes no part of
    the filter state: it makes coefficients and pushes them into the filter
    state as that state is. *)
Theorem activate_effect :
  (forall w : Filtered.World,
      sized (Filtered.filterState (Filtered.self w)) ->
      let p := Filtered.self w in
      let r := Filtered.activate w in
      let p' := Filtered.self (final r) in
      let sr := F32.of_double (getSampleRate (Filtered.base p)) in
      let bs := getBufferSize (Filtered.base p) in
      events r
      = [Call_flush; Call_Reset; Call_setSampleRateAndBlockSize sr bs;
         Call_MakeCoeffs (Filtered.fFreqNote p) (Filtered.fResonance p);
         Call_updateState] /\
      Filtered.fSmoothGain p' = flush (Filtered.fSmoothGain p) /\
      Filtered.coeffMaker p'
      = MakeCoeffs (Filtered.fFreqNote p) (Filtered.fResonance p)
          (Filtered.ft p) (Filtered.fst_ p) false
          (setSampleRateAndBlockSize sr bs (Reset (Filtered.coeffMaker p))) /\
      Filtered.filterState p'
      = updateState (Filtered.coeffMaker p')
          (registers_reset (Filtered.filterState p)) /\
      Filtered.delayBuffer p' = Filtered.delayBuffer p /\
      Filtered.mem (final r) = Filtered.mem w) /\
  (forall w : GainOnly.World,
      let p := GainOnly.self w in
      let r := GainOnly.activate w in
      let p' := GainOnly.self (final r) in
      let sr := F32.of_double (getSampleRate (GainOnly.base p)) in
      let bs := getBufferSize (GainOnly.base p) in
      exists Freq Reso : float,
        events r
        = [Call_flush; Call_setSampleRateAndBlockSize sr bs;
           Call_MakeCoeffs Freq Reso; Call_updateState] /\
        GainOnly.fSmoothGain p' = flush (GainOnly.fSmoothGain p) /\
        GainOnly.coeffMaker p'
        = MakeCoeffs Freq Reso (GainOnly.ft p) (GainOnly.fst_ p) false
            (setSampleRateAndBlockSize sr bs (GainOnly.coeffMaker p)) /\
        GainOnly.filterState p'
        = updateState (GainOnly.coeffMaker p') (GainOnly.filterState p)).
Proof.
  split.
  - intros w Hsized.
    unfold Filtered.activate, Filtered.fSmoothGain_flush,
      Filtered.coeffMaker_setSampleRateAndBlockSize,
      Filtered.coeffMaker_MakeCoeffs, Filtered.coeffMaker_updateState,
      Filtered.this, Filtered.assign, bind, gets, modify, emit, ret.
    cbn -[Filtered.resetFilterRegisters].
    match goal with
    | |- context [Filtered.resetFilterRegisters ?w1] =>
        rewrite (resetFilterRegisters_spec w1) by exact Hsized
    end.
    cbn. repeat split; reflexivity.
  - intros w; cbn zeta.
    exists (F32.of_double lit_m12_0), (F32.of_double lit_0_2).
    destruct (gain_only_activate_spec w) as (He & Hs & Hc & Hf & _).
    repeat split; assumption.
Qed.

End LifecycleClaims.

Section Recomputation.
Context {libm : Libm} {sst : SstFilters} {smooth : ParamSmooth}.

(** C4, as the code has it: in the filtered variant every [run] first
    calls [MakeCoeffs] with the current [fFreqNote] and [fResonance] and
    then [updateState], with no sample touched yet, and only then runs the
    sample loop on the state so prepared.  In the gain-only variant [run]
    never calls [MakeCoeffs]: the coefficients are recomputed when the
    FrequencyNote parameter is written, with the resonance fixed at 0.2. *)
Theorem run_recomputes_coefficients :
  (forall (w : Filtered.World) inputs outputs frames,
      let p := Filtered.self w in
      let w1 := FilteredRef.prepared w in
      let loop := for_from 0 frames
                    (Filtered.run_sample (inputs 0) (outputs 0) (outputs 1)) w1 in
      events (Filtered.run inputs outputs frames w)
      = Call_MakeCoeffs (Filtered.fFreqNote p) (Filtered.fResonance p)
        :: Call_updateState :: events loop /\
      final (Filtered.run inputs outputs frames w) = final loop /\
      Filtered.mem w1 = Filtered.mem w /\
      Filtered.coeffMaker (Filtered.self w1)
      = MakeCoeffs (Filtered.fFreqNote p) (Filtered.fResonance p)
          (Filtered.ft p) (Filtered.fst_ p) false (FilteredRef.copied w) /\
      Filtered.filterState (Filtered.self w1)
      = updateState (Filtered.coeffMaker (Filtered.self w1))
          (Filtered.filterState p)) /\
  (forall (w : GainOnly.World) inputs outputs frames,
      let r := GainOnly.run inputs outputs frames w in
      existsb is_MakeCoeffs (events r) = false /\
      GainOnly.coeffMaker (GainOnly.self (final r))
      = GainOnly.coeffMaker (GainOnly.self w)) /\
  (forall (w : GainOnly.World) value,
      events (GainOnly.setParameterValue 1 value w)
      = [Stdout "New freq note: %f" value;
         Call_MakeCoeffs value (F32.of_double lit_0_2); Call_updateState]).
Proof.
  split; [|split].
  - intros w inputs outputs frames; cbn zeta.
    destruct (run_spec inputs outputs frames w) as [Hfinal Hevents].
    repeat split; assumption || reflexivity.
  - intros w inputs outputs frames; cbn zeta.
    destruct (gain_only_loop_keeps_coefficients
                (outputs 0) (outputs 1) frames 0 w) as [Hcm Hev].
    split; [exact Hev | exact Hcm].
  - intros w value; reflexivity.
Qed.

(** C3: with [frames >= 1] (written [S n]) the filtered [run] loads the
    left input and stores the left output at index [frames + 2], three
    floats past the last valid index [frames - 1]. *)
Theorem run_touches_memory_past_frames :
  forall (w : Filtered.World) inputs outputs n,
    let frames := S n in
    let es := events (Filtered.run inputs outputs frames w) in
    In (Load (inputs 0 + (frames + 2))) es /\
    exists v, In (Store (outputs 0 + (frames + 2)) v) es.
Proof.
  intros w inputs outputs n; cbn zeta.
  destruct (run_spec inputs outputs (S n) w) as [_ ->].
  replace (inputs 0 + (S n + 2)) with (inputs 0 + n + 3) by lia.
  replace (outputs 0 + (S n + 2)) with (outputs 0 + n + 3) by lia.
  rewrite for_from_snoc_events, run_sample_spec, Nat.add_0_l.
  cbn [events snd].
  split.
  - right; right; apply in_or_app; right; cbn [In].
    do 3 right; left; reflexivity.
  - eexists. right; right; apply in_or_app; right; cbn [In].
    do 9 right; left; reflexivity.
Qed.

(** The gain-only loop stays inside the two output buffers. *)
Lemma gain_only_run_within_buffers :
  forall (w : GainOnly.World) inputs outputs frames,
    within_buffers [outputs 0; outputs 1] frames
      (events (GainOnly.run inputs outputs frames w)) = true.
Proof.
  intros w inputs outputs frames. unfold GainOnly.run.
  assert (H : forall n start (w0 : GainOnly.World),
             start + n <= frames ->
             within_buffers [outputs 0; outputs 1] frames
               (events (for_from start n
                          (GainOnly.run_sample (outputs 0) (outputs 1)) w0)) = true).
  { induction n as [|n IH]; intros start w0 Hle; [reflexivity|].
    rewrite for_from_S_events. unfold within_buffers in *.
    rewrite forallb_app, IH by lia.
    rewrite gain_only_run_sample_spec.
    cbn [events snd forallb touched existsb].
    assert (H1 : forall b, (b <=? b + start) = true)
      by (intros; apply Nat.leb_le; lia).
    assert (H2 : forall b, (b + start <? b + frames) = true)
      by (intros; apply Nat.ltb_lt; lia).
    rewrite !H1, !H2. cbn [andb orb]. rewrite !orb_true_r. reflexivity. }
  apply H; lia.
Qed.

(** C2: the code at the failing input.  After the host writes 100 to
    FrequencyNote and 2 to Resonance, the next [run] of the filtered variant
    hands exactly these values to [MakeCoeffs]; both lie outside the ranges
    the plugin declares in [initParameter].  The gain-only variant hands
    the 100 to [MakeCoeffs] at once. *)
Theorem MakeCoeffs_receives_unclamped_values :
  forall (d : DistrhoParameter),
    let freq := F32.of_Z 100 in
    let reso := F32.of_Z 2 in
    (forall (w : Filtered.World) inputs outputs frames,
        let w1 := final (Filtered.setParameterValue 1 freq w) in
        let w2 := final (Filtered.setParameterValue 2 reso w1) in
        In (Call_MakeCoeffs freq reso)
           (events (Filtered.run inputs outputs frames w2))) /\
    (forall (w : GainOnly.World),
        In (Call_MakeCoeffs freq (F32.of_double lit_0_2))
           (events (GainOnly.setParameterValue 1 freq w))) /\
    in_declared_range (Filtered.initParameter 1 d) freq = false /\
    in_declared_range (Filtered.initParameter 2 d) reso = false /\
    in_declared_range (GainOnly.initParameter 1 d) freq = false.
Proof.
  intros d; cbn zeta.
  split; [|split; [|repeat split; reflexivity]].
  - intros w inputs outputs frames.
    match goal with
    | |- In _ (events (Filtered.run _ _ _ ?w2)) =>
        destruct (run_spec inputs outputs frames w2) as [_ ->]
    end.
    left; reflexivity.
  - intros w. right; left; reflexivity.
Qed.
End Recomputation.

(** ** The claims on the stand-in libraries *)

(** C4 fails in the gain-only variant: a [run] of four frames makes no call
    to [MakeCoeffs]. *)
Lemma gain_only_run_skips_recomputation :
  existsb is_MakeCoeffs
    (events
       (GainOnly.run (libm := Stub.libm) (sst := Stub.sst) (smooth := Stub.smooth)
          (Stub.inputs_at 0 8) (Stub.outputs_at 16 24) 4 Stub.gainonly0))
  = false.
Proof. vm_compute. reflexivity. Qed.

(** C5 fails in both variants.  Filtered variant: after [activate] the
    delay lines still hold what they held before, here ones, and the lanes
    of [active] hold 0xFFFFFFFF, not zero.  Gain-only variant: two frames
    are processed, the host writes 33 to FrequencyNote, then [activate]
    runs; register 0 of the filter is still not zero, and the coefficients
    are made from -12.0 while the parameter reads 33. *)
Lemma activate_keeps_history_and_ignores_parameter :
  (let p' :=
     Filtered.self
       (final (Filtered.activate (sst := Stub.sst) (smooth := Stub.smooth)
                 Stub.filtered0)) in
   Filtered.delayBuffer p' = Stub.stale_delay /\
   forallb (forallb is_zero) (Filtered.delayBuffer p') = false /\
   QuadFilterUnitState.active (Filtered.filterState p')
   = [(-1)%Z; (-1)%Z; (-1)%Z; (-1)%Z]) /\
  (let w1 :=
     final (GainOnly.run (libm := Stub.libm) (sst := Stub.sst) (smooth := Stub.smooth)
              (Stub.inputs_at 0 8) (Stub.outputs_at 16 24) 2 Stub.gainonly0) in
   let w2 := final (GainOnly.setParameterValue (libm := Stub.libm) 1 (F32.of_Z 33) w1) in
   let r := GainOnly.activate w2 in
   let p' := GainOnly.self (final r) in
   all_zero (nth 0 (QuadFilterUnitState.R (GainOnly.filterState p')) _mm_setzero_ps)
   = false /\
   value (GainOnly.getParameterValue 1 (final r)) = F32.of_Z 33 /\
   events r
   = [Call_flush;
      Call_setSampleRateAndBlockSize (F32.of_double (F64.of_Z 48000)) 128;
      Call_MakeCoeffs (F32.of_double lit_m12_0) (F32.of_double lit_0_2);
      Call_updateState] /\
   F32.of_double lit_m12_0 <> F32.of_Z 33).
Proof.
  split; cbn zeta.
  - vm_compute. repeat split; reflexivity.
  - split; [vm_compute; reflexivity|].
    split; [vm_compute; reflexivity|].
    split; [vm_compute; reflexivity|].
    vm_compute. discriminate.
Qed.

(** C5 on the stand-in plugin after two processed frames: the smoother
    has left its initial state, and [activate] flushes it and pushes the
    coefficients into reset registers. *)
Lemma activate_effect_witness :
  let w1 :=
    final (Filtered.run (sst := Stub.sst) (smooth := Stub.smooth)
             (Stub.inputs_at 0 8) (Stub.outputs_at 16 24) 2 Stub.filtered0) in
  let p := Filtered.self w1 in
  let p' := Filtered.self (final (Filtered.activate w1)) in
  sized (Filtered.filterState p) /\
  Filtered.fSmoothGain p <> flush (Filtered.fSmoothGain p) /\
  Filtered.fSmoothGain p' = flush (Filtered.fSmoothGain p) /\
  Filtered.filterState p'
  = updateState (Filtered.coeffMaker p')
      (registers_reset (Filtered.filterState p)).
Proof.
  cbn zeta.
  assert (Hsized :
    sized (Filtered.filterState (Filtered.self
      (final (Filtered.run (sst := Stub.sst) (smooth := Stub.smooth)
                (Stub.inputs_at 0 8) (Stub.outputs_at 16 24) 2 Stub.filtered0)))))
    by (vm_compute; repeat split; reflexivity).
  split; [exact Hsized|].
  split; [vm_compute; discriminate|].
  destruct (proj1 (@activate_effect Stub.sst Stub.smooth) _ Hsized)
    as (_ & Hflush & _ & Hstate & _).
  split; [exact Hflush | exact Hstate].
Defined.



(** ** Host memory *)

Lemma mem_store_same m a v : mem_store m a v a = v.
Proof. unfold mem_store. rewrite Nat.eqb_refl. reflexivity. Qed.

Lemma mem_store_other m a v x : x <> a -> mem_store m a v x = m x.
Proof.
  intros Hne. unfold mem_store.
  destruct (Nat.eqb_spec x a); [contradiction | reflexivity].
Qed.

Lemma store4_outside m a v x : ~ (a <= x < a + 4) -> store4 m a v x = m x.
Proof.
  intros Hout. unfold store4.
  rewrite !mem_store_other by lia. reflexivity.
Qed.

Lemma store4_first m a v : store4 m a v a = lane0 v.
Proof.
  unfold store4.
  rewrite !mem_store_other by lia. apply mem_store_same.
Qed.

Lemma window_ext m1 m2 a :
  (forall j, j < 4 -> m1 (a + j) = m2 (a + j)) -> window m1 a = window m2 a.
Proof.
  intros H. unfold window.
  rewrite <- (Nat.add_0_r a) at 1 5.
  rewrite !H by lia. rewrite Nat.add_0_r. reflexivity.
Qed.

(** ** The output samples of [run] *)

Section FilteredOutputs.
Context {libm : Libm} {sst : SstFilters} {smooth : ParamSmooth}.
Import Filtered FilteredRef.

Variables inpL outL outR frames : nat.
Variable w0 : World.
Hypothesis Hsep : separated inpL outL outR frames.

Let body := run_sample inpL outL outR.
Let input := fun j => window (mem w0) (inpL + j).
Let at_ k := final (for_from 0 k body w0).

(** After [k] iterations: the object is the reference object at [k], the
    memory outside what has been written is the host's, and the output
    samples written so far have their final values. *)
Lemma filtered_loop_invariant k :
  k <= frames ->
  self (at_ k) = dsp_at (self w0) input k /\
  (forall a, ~ (outL <= a < outL + k + 3) -> ~ (outR <= a < outR + k) ->
             mem (at_ k) a = mem w0 a) /\
  (forall i, i < k ->
     mem (at_ k) (outL + i)
     = F32.mul (lane0 (filt_at (self w0) input i)) (gain_at (self w0) input i) /\
     mem (at_ k) (outR + i)
     = F32.mul (mem w0 (inpL + i)) (gain_at (self w0) input i)).
Proof.
  destruct Hsep as (Hio & Hir & Hlr). unfold disjoint in Hio, Hir, Hlr.
  induction k as [|k IH]; intros Hk.
  - split; [reflexivity|]. split; [reflexivity|]. intros i Hi; lia.
  - destruct IH as (Hself & Hmem & Hout); [lia|].
    unfold at_ in *. rewrite for_from_snoc_final, Nat.add_0_l.
    set (wk := final (for_from 0 k body w0)) in *.
    unfold body. rewrite run_sample_spec. cbn [final fst snd self mem].
    assert (Hx : window (mem wk) (inpL + k) = input k).
    { apply window_ext; intros j Hj. apply Hmem; lia. }
    rewrite Hx, Hself.
    fold (filt_at (self w0) input k). fold (gain_at (self w0) input k).
    split; [reflexivity|]. split.
    + intros a Ha1 Ha2.
      rewrite mem_store_other by lia.
      rewrite store4_outside by lia.
      apply Hmem; lia.
    + intros i Hi.
      destruct (Nat.eq_dec i k) as [->|Hne].
      * split.
        -- rewrite mem_store_other by lia. apply store4_first.
        -- rewrite mem_store_same, store4_outside by lia.
           rewrite Hmem by lia. reflexivity.
      * destruct (Hout i) as [HL HR]; [lia|].
        split.
        -- rewrite mem_store_other by lia.
           rewrite store4_outside by lia. exact HL.
        -- rewrite mem_store_other by lia.
           rewrite store4_outside by lia. exact HR.
Qed.
End FilteredOutputs.

Section GainOnlyOutputs.
Context {libm : Libm} {sst : SstFilters} {smooth : ParamSmooth}.
Import GainOnly GainOnlyRef.

Variables outL outR frames : nat.
Variable w0 : World.
Hypothesis Hsep : disjoint outL frames outR frames.

Let body := run_sample outL outR.
Let at_ k := final (for_from 0 k body w0).

Lemma gain_only_loop_invariant k :
  k <= frames ->
  self (at_ k) = dsp_at (self w0) k /\
  (forall i, i < k ->
     mem (at_ k) (outL + i)
     = F32.mul (lane0 (filt_at (self w0) i)) (gain_at (self w0) i) /\
     mem (at_ k) (outR + i)
     = F32.mul (tone_at (self w0) i) (gain_at (self w0) i)).
Proof.
  unfold disjoint in Hsep.
  induction k as [|k IH]; intros Hk.
  - split; [reflexivity|]. intros i Hi; lia.
  - destruct IH as (Hself & Hout); [lia|].
    unfold at_ in *. rewrite for_from_snoc_final, Nat.add_0_l.
    set (wk := final (for_from 0 k body w0)) in *.
    unfold body. rewrite gain_only_run_sample_spec.
    cbn [final fst snd self mem].
    rewrite Hself.
    fold (filt_at (self w0) k). fold (gain_at (self w0) k).
    fold (tone_at (self w0) k).
    split; [reflexivity|].
    intros i Hi.
    destruct (Nat.eq_dec i k) as [->|Hne].
    + split.
      * rewrite mem_store_other by lia. apply mem_store_same.
      * apply mem_store_same.
    + destruct (Hout i) as [HL HR]; [lia|].
      split; rewrite !mem_store_other by lia; assumption.
Qed.
End GainOnlyOutputs.

Section OutputSamples.
Context {libm : Libm} {sst : SstFilters} {smooth : ParamSmooth}.

(** Output samples on buffers that lie apart.  In the filtered variant
    the left input and the left output are taken with the three floats the
    4-wide load and store reach after them; in the gain-only variant only
    the two outputs must not overlap.  After [run] the left output at every
    index [i < frames] is lane 0 of what the filter unit returned for
    sample [i] times the gain the smoother returned for sample [i], and the
    right output is the unfiltered filter input of sample [i] times that
    same gain.  In the filtered variant the filter input is the left input
    [inpL[i .. i+3]], in the gain-only variant it is the test tone. *)
Theorem run_output_samples :
  (forall (w : Filtered.World) inputs outputs frames i,
      FilteredRef.separated (inputs 0) (outputs 0) (outputs 1) frames ->
      i < frames ->
      let w' := final (Filtered.run inputs outputs frames w) in
      let p0 := Filtered.self (FilteredRef.prepared w) in
      let input := fun j => window (Filtered.mem w) (inputs 0 + j) in
      let gain := FilteredRef.gain_at p0 input i in
      Filtered.mem w' (outputs 0 + i)
      = F32.mul (lane0 (FilteredRef.filt_at p0 input i)) gain /\
      Filtered.mem w' (outputs 1 + i)
      = F32.mul (Filtered.mem w (inputs 0 + i)) gain /\
      Filtered.self w' = FilteredRef.dsp_at p0 input frames) /\
  (forall (w : GainOnly.World) inputs outputs frames i,
      disjoint (outputs 0) frames (outputs 1) frames ->
      i < frames ->
      let w' := final (GainOnly.run inputs outputs frames w) in
      let p0 := GainOnly.self w in
      let gain := GainOnlyRef.gain_at p0 i in
      GainOnly.mem w' (outputs 0 + i)
      = F32.mul (lane0 (GainOnlyRef.filt_at p0 i)) gain /\
      GainOnly.mem w' (outputs 1 + i)
      = F32.mul (GainOnlyRef.tone_at p0 i) gain /\
      GainOnly.self w' = GainOnlyRef.dsp_at p0 frames).
Proof.
  split.
  - intros w inputs outputs frames i Hsep Hi; cbn zeta.
    destruct (run_spec inputs outputs frames w) as [-> _].
    destruct (filtered_loop_invariant (FilteredRef.prepared w) Hsep (Nat.le_refl frames))
      as (Hself & _ & Hout).
    destruct (Hout i Hi) as [HL HR].
    change (Filtered.mem (FilteredRef.prepared w)) with (Filtered.mem w) in *.
    repeat split; assumption.
  - intros w inputs outputs frames i Hsep Hi; cbn zeta.
    unfold GainOnly.run.
    destruct (gain_only_loop_invariant w Hsep (Nat.le_refl frames))
      as (Hself & Hout).
    destruct (Hout i Hi) as [HL HR].
    repeat split; assumption.
Qed.
End OutputSamples.

(** On the stand-in plugin: four frames, buffers 8 apart, sample 3. *)
Lemma run_output_samples_witness :
  FilteredRef.separated 0 16 24 4 /\ 3 < 4 /\
  Filtered.mem
    (final (Filtered.run (sst := Stub.sst) (smooth := Stub.smooth)
              (Stub.inputs_at 0 8) (Stub.outputs_at 16 24) 4 Stub.filtered0))
    (24 + 3)
  = F32.mul (Stub.ramp 3)
      (FilteredRef.gain_at (Filtered.self (FilteredRef.prepared Stub.filtered0))
         (fun j => window Stub.ramp j) 3).
Proof.
  assert (Hsep : FilteredRef.separated 0 16 24 4)
    by (unfold FilteredRef.separated, disjoint; lia).
  split; [exact Hsep|]. split; [lia|].
  apply (proj1 (@run_output_samples Stub.libm Stub.sst Stub.smooth)
           Stub.filtered0 (Stub.inputs_at 0 8) (Stub.outputs_at 16 24) 4 3 Hsep).
  lia.
Defined.

(** ** Adjacent output buffers *)

(** C1: the code at the failing input.  Four frames, no buffer in place:
    the inputs at addresses 0..3 and 8..11, the left output at 16..19 and
    the right output directly after it at 20..23.  Every left output sample
    and the last right output sample are as the claim says.  The first
    three right output samples are not: [run] stores input times gain there
    (the store of sample 0 is in the log), and the 4-wide stores to the
    left output of the later samples run over them; they end as lanes 1, 2
    and 3 of the last filtered vector times the last gain. *)
Theorem contiguous_outputs_lose_right_samples :
  let inputs := Stub.inputs_at 0 8 in
  let outputs := Stub.outputs_at 16 20 in
  let frames := 4 in
  let w := Stub.filtered0 in
  let r := Filtered.run (sst := Stub.sst) (smooth := Stub.smooth)
             inputs outputs frames w in
  let w' := final r in
  let p0 := Filtered.self (FilteredRef.prepared w) in
  let input := fun j => window (Filtered.mem w) (inputs 0 + j) in
  let filt := FilteredRef.filt_at p0 input in
  let gain := FilteredRef.gain_at p0 input in
  let dry := fun i => F32.mul (Filtered.mem w (inputs 0 + i)) (gain i) in
  (disjoint (inputs 0) (frames + 3) (outputs 0) (frames + 3) /\
   disjoint (inputs 0) (frames + 3) (outputs 1) frames /\
   disjoint (outputs 0) frames (outputs 1) frames /\
   outputs 1 = outputs 0 + frames) /\
  (forall i, i < frames ->
     Filtered.mem w' (outputs 0 + i) = F32.mul (lane0 (filt i)) (gain i)) /\
  Filtered.mem w' (outputs 1 + 3) = dry 3 /\
  In (Store (outputs 1 + 0) (dry 0)) (events r) /\
  (Filtered.mem w' (outputs 1 + 0) = F32.mul (lane1 (filt 3)) (gain 3) /\
   Filtered.mem w' (outputs 1 + 0) <> dry 0) /\
  (Filtered.mem w' (outputs 1 + 1) = F32.mul (lane2 (filt 3)) (gain 3) /\
   Filtered.mem w' (outputs 1 + 1) <> dry 1) /\
  (Filtered.mem w' (outputs 1 + 2) = F32.mul (lane3 (filt 3)) (gain 3) /\
   Filtered.mem w' (outputs 1 + 2) <> dry 2).
Proof.
  cbn zeta. split; [|split; [|split; [|split]]].
  - unfold disjoint. cbn. lia.
  - intros i Hi.
    destruct i as [|[|[|[|i]]]]; [vm_compute; reflexivity .. | lia].
  - vm_compute. reflexivity.
  - vm_compute. do 13 right. left. reflexivity.
  - vm_compute. repeat split; try reflexivity; discriminate.
Qed.

(** ** Overlapping buffers *)

Section InPlace.
Context {libm : Libm} {sst : SstFilters} {smooth : ParamSmooth}.
Import Filtered FilteredRef.

(** When the host processes in place (left output = left input), the
    right output of a one-frame [run] is the left output times the gain
    again: [inpL[0]] is read back after the store to [outL[0]]. *)
Lemma in_place_right_output (w : World) inputs outputs :
  outputs 0 = inputs 0 ->
  ~ (inputs 0 <= outputs 1 < inputs 0 + 4) ->
  let w' := final (run inputs outputs 1 w) in
  let p0 := self (FilteredRef.prepared w) in
  let input := fun j => window (mem w) (inputs 0 + j) in
  let gain := gain_at p0 input 0 in
  mem w' (outputs 1) = F32.mul (mem w' (outputs 0)) gain /\
  mem w' (outputs 0) = F32.mul (lane0 (filt_at p0 input 0)) gain.
Proof.
  intros Halias Hout; cbn zeta.
  destruct (run_spec inputs outputs 1 w) as [-> _].
  rewrite for_from_S_final, run_sample_spec. cbn [for_from final ret fst snd mem].
  rewrite Halias, !Nat.add_0_r.
  change (mem (FilteredRef.prepared w)) with (mem w).
  unfold gain_at, filt_at; cbn [dsp_at]. rewrite !Nat.add_0_r.
  rewrite mem_store_same.
  rewrite (mem_store_other _ _ (x := inputs 0)) by lia.
  rewrite store4_first. cbn [_mm_mul_ps _mm_set_ps1 lane0].
  split; reflexivity.
Qed.
End InPlace.

(** In-place processing on the stand-in plugin: one frame, left output on
    the left input at address 0, input sample 1.0, smoothed gain 0.5.  The
    right output is 0.25, not input times gain = 0.5. *)
Lemma in_place_run_squares_the_gain :
  let w' :=
    final (Filtered.run (sst := Stub.sst) (smooth := Stub.smooth)
             (Stub.inputs_at 0 8) (Stub.outputs_at 0 24) 1 Stub.filtered0) in
  let gain :=
    FilteredRef.gain_at (Filtered.self (FilteredRef.prepared Stub.filtered0))
      (fun j => window Stub.ramp (0 + j)) 0 in
  gain = lit_0_5f /\
  Stub.ramp 0 = F32.one /\
  Filtered.mem w' 24 = S754_finite false 8388608 (-25) /\
  Filtered.mem w' 24 <> F32.mul (Stub.ramp 0) gain.
Proof.
  vm_compute. repeat split; try reflexivity. discriminate.
Qed.

(** ** The right input channel *)

Lemma mem_store_congr m1 m2 a v x :
  (x <> a -> m1 x = m2 x) -> mem_store m1 a v x = mem_store m2 a v x.
Proof.
  intros H. unfold mem_store.
  destruct (Nat.eqb_spec x a); [reflexivity | apply H; assumption].
Qed.

Lemma store4_congr m1 m2 a v x :
  (~ (a <= x < a + 4) -> m1 x = m2 x) -> store4 m1 a v x = store4 m2 a v x.
Proof.
  intros H. unfold store4.
  repeat (apply mem_store_congr; intros ?).
  apply H; lia.
Qed.

Section RightInput.
Context {libm : Libm} {sst : SstFilters} {smooth : ParamSmooth}.
Import Filtered FilteredRef.

(** The coefficient copy reads the object only, not the host memory. *)
Lemma copy_loop_of_self n : forall start (p : ImGuiPluginDSP),
  exists cm, forall m,
    for_from start n copy_coefficient (Build_World p m)
    = (tt, Build_World (set_coeffMaker cm p) m, []).
Proof.
  induction n as [|n IH]; intros start p.
  - exists (coeffMaker p). intros m. destruct p; reflexivity.
  - cbn [for_from]. unfold bind at 1.
    unfold copy_coefficient at 1, this, assign, bind, gets, modify; cbn.
    match goal with
    | |- context [for_from (S start) n copy_coefficient (Build_World ?p1 _)] =>
        destruct (IH (S start) p1) as [cm Hcm]
    end.
    exists cm. intros m. rewrite Hcm. reflexivity.
Qed.

Lemma prepared_of_self (w1 w2 : World) :
  self w1 = self w2 -> self (FilteredRef.prepared w1) = self (FilteredRef.prepared w2).
Proof.
  destruct w1 as [p m1], w2 as [p2 m2]; cbn [self]; intros <-.
  unfold FilteredRef.prepared, FilteredRef.copied; cbn [self mem].
  destruct (copy_loop_of_self n_cm_coeffs 0 p) as [cm Hcm].
  rewrite !Hcm. reflexivity.
Qed.

Variables inpL inpR outL outR frames : nat.
Variables w1 w2 : World.
Hypothesis Hself0 : self w1 = self w2.
Hypothesis Hmem0 : agree_outside (mem w1) (mem w2) inpR frames.
Hypothesis Hapart : disjoint inpL (frames + 3) inpR frames.

Let body := run_sample inpL outL outR.


(** Two runs that start from the same object, on memories that differ
    only inside a right input buffer lying apart from the floats the left
    loads reach, stay in step. *)
Lemma right_input_loop_in_step k :
  k <= frames ->
  let r1 := for_from 0 k body w1 in
  let r2 := for_from 0 k body w2 in
  self (final r1) = self (final r2) /\
  events r1 = events r2 /\
  (forall a, ~ (inpR <= a < inpR + frames) \/ written outL outR k a ->
             mem (final r1) a = mem (final r2) a).
Proof.
  unfold disjoint in Hapart.
  induction k as [|k IH]; intros Hk; cbn zeta.
  - split; [exact Hself0|]. split; [reflexivity|].
    intros a [Ha|[(i & Hi & _)|(i & Hi & _)]]; try lia.
    apply Hmem0; exact Ha.
  - destruct IH as (Hself & Hev & Hmem); [lia|].
    rewrite !for_from_snoc_final, !for_from_snoc_events, !Nat.add_0_l, Hev.
    set (u1 := final (for_from 0 k body w1)) in *.
    set (u2 := final (for_from 0 k body w2)) in *.
    assert (Hx : window (mem u1) (inpL + k) = window (mem u2) (inpL + k)).
    { apply window_ext; intros j Hj. apply Hmem; left; lia. }
    unfold body. rewrite !run_sample_spec. cbn [final events fst snd self mem].
    rewrite Hself, Hx.
    set (d := dsp_step (self u2) (window (mem u2) (inpL + k))).
    set (post := _mm_mul_ps (fst (fst d)) (_mm_set_ps1 (snd (fst d)))).
    assert (Hs : store4 (mem u1) (outL + k) post (inpL + k)
                 = store4 (mem u2) (outL + k) post (inpL + k)).
    { apply store4_congr; intros _. apply Hmem; left; lia. }
    rewrite Hs.
    split; [reflexivity|]. split; [reflexivity|].
    intros a Ha.
    apply mem_store_congr; intros Hne.
    apply store4_congr; intros Hout.
    apply Hmem.
    destruct Ha as [Ha|[(i & Hi & Hr)|(i & Hi & Hr)]].
    + left; exact Ha.
    + right; left; exists i; split; [|exact Hr].
      destruct (Nat.eq_dec i k); [subst; lia | lia].
    + right; right; exists i; split; [|exact Hr].
      destruct (Nat.eq_dec i k); [subst; lia | lia].
Qed.
End RightInput.

Section RightInputClaim.
Context {libm : Libm} {sst : SstFilters} {smooth : ParamSmooth}.
Import Filtered FilteredRef.

(** When the right input buffer lies apart from the floats the 4-wide left
    loads reach, two runs from the same object on memories that differ
    only inside the right input buffer end in the same object, with the
    same log and the same output samples. *)
Lemma right_input_noninterference (w1 w2 : World) inputs outputs frames :
  self w1 = self w2 ->
  agree_outside (mem w1) (mem w2) (inputs 1) frames ->
  disjoint (inputs 0) (frames + 3) (inputs 1) frames ->
  let r1 := run inputs outputs frames w1 in
  let r2 := run inputs outputs frames w2 in
  self (final r1) = self (final r2) /\
  events r1 = events r2 /\
  (forall i, i < frames ->
     mem (final r1) (outputs 0 + i) = mem (final r2) (outputs 0 + i) /\
     mem (final r1) (outputs 1 + i) = mem (final r2) (outputs 1 + i)) /\
  agree_outside (mem (final r1)) (mem (final r2)) (inputs 1) frames.
Proof.
  intros Hself Hmem Hapart; cbn zeta.
  destruct (run_spec inputs outputs frames w1) as [-> ->].
  destruct (run_spec inputs outputs frames w2) as [-> ->].
  destruct (@right_input_loop_in_step _ _ (inputs 0) (inputs 1) (outputs 0)
              (outputs 1) frames (FilteredRef.prepared w1) (FilteredRef.prepared w2)
              (prepared_of_self _ _ Hself) Hmem Hapart frames (Nat.le_refl _))
    as (Hs & He & Hm).
  rewrite He, Hself. split; [exact Hs|]. split; [reflexivity|]. split.
  - intros i Hi; split; apply Hm; right.
    + left; exists i; split; [exact Hi | lia].
    + right; exists i; split; [exact Hi | reflexivity].
  - intros a Ha. apply Hm; left; exact Ha.
Qed.
End RightInputClaim.

(** C10: the code at the failing input.  Four frames, the right input
    buffer directly after the left one (addresses 0..3 and 4..7), the right
    output buffer directly after the left one (16..19 and 20..23).  The two
    memories differ only in the first right input sample.  [run] loads that
    sample and hands it to the filter unit in lane 3 of the input of sample
    1, and the two runs end with different right output samples and
    different filter states. *)
Theorem right_input_reaches_the_filter :
  let inputs := Stub.inputs_at 0 4 in
  let outputs := Stub.outputs_at 16 20 in
  let w1 := Stub.filtered0 in
  let w2 := Filtered.Build_World (Filtered.self Stub.filtered0)
              Stub.ramp_with_100_at_4 in
  let r1 := Filtered.run (sst := Stub.sst) (smooth := Stub.smooth) inputs outputs 4 w1 in
  let r2 := Filtered.run (sst := Stub.sst) (smooth := Stub.smooth) inputs outputs 4 w2 in
  FilteredRef.agree_outside (Filtered.mem w1) (Filtered.mem w2) (inputs 1) 4 /\
  In (Load (inputs 1 + 0)) (events r1) /\
  In (Call_FUnit (window (Filtered.mem w1) (inputs 0 + 1))) (events r1) /\
  lane3 (window (Filtered.mem w1) (inputs 0 + 1)) = Filtered.mem w1 (inputs 1 + 0) /\
  Filtered.mem (final r1) (outputs 1 + 0) <> Filtered.mem (final r2) (outputs 1 + 0) /\
  Filtered.filterState (Filtered.self (final r1))
  <> Filtered.filterState (Filtered.self (final r2)).
Proof.
  cbn zeta. split; [|split; [|split; [|split; [|split]]]].
  - intros a Ha. cbn in Ha |- *. unfold Stub.ramp_with_100_at_4.
    destruct (Nat.eqb_spec a 4); [lia | reflexivity].
  - vm_compute. do 17 right. left. reflexivity.
  - vm_compute. do 18 right. left. reflexivity.
  - reflexivity.
  - vm_compute. discriminate.
  - vm_compute. discriminate.
Qed.

(** ** The gain path is clamped *)

Lemma SFcompare_swap (a b : spec_float) :
  SFcompare a b = option_map CompOpp (SFcompare b a).
Proof.
  destruct a as [sa|sa| |sa ma ea], b as [sb|sb| |sb mb eb];
    try reflexivity;
    try (destruct sa; reflexivity);
    try (destruct sb; reflexivity);
    try (destruct sa, sb; reflexivity).
  cbn [SFcompare option_map].
  pose proof (Pos.compare_cont_antisym ma mb Eq) as Hm; cbn [CompOpp] in Hm.
  destruct sa, sb; try reflexivity;
    rewrite (Z.compare_antisym ea eb);
    destruct (ea ?= eb)%Z; cbn [CompOpp]; try reflexivity;
    rewrite <- Hm;
    destruct (Pos.compare_cont Eq ma mb); reflexivity.
Qed.

Section GainClamp.
Context {libm : Libm}.

(** Whatever the host writes to Gain, [powf] is only reached with a
    decibel value in (-90, 30]; for every other value, NaN included, the
    linear gain is 0.0. *)
Lemma gain_argument_is_clamped (value : float) :
  let c := CLAMP (F64.of_float value) lit_m90_0 lit_30_0 in
  DB_CO c = F32.zero \/
  (F64.lt lit_m90_0 c = true /\ F64.le c lit_30_0 = true /\
   DB_CO c = powf lit_10_0f (F32.of_double (F64.mul c (F64.of_float lit_0_05f)))).
Proof.
  cbn zeta. unfold DB_CO.
  change (F64.of_float lit_m90_0f) with lit_m90_0.
  set (c := CLAMP (F64.of_float value) lit_m90_0 lit_30_0).
  unfold F64.gt, F64.lt, F64.le.
  destruct (SFltb lit_m90_0 c) eqn:Hlow; [right | left; reflexivity].
  split; [reflexivity|]. split; [|reflexivity].
  subst c. unfold CLAMP, MIN, F64.lt in *.
  set (M := MAX lit_m90_0 (F64.of_float value)) in *.
  destruct (SFltb lit_30_0 M) eqn:Hhigh; [reflexivity|].
  unfold SFltb, SFleb in *.
  rewrite (SFcompare_swap M lit_30_0).
  destruct (SFcompare lit_30_0 M) as [[| |]|] eqn:Hcmp;
    cbn [option_map CompOpp]; try reflexivity; try discriminate.
  (* 30.0 and M do not compare: M is a NaN, which is not above -90.0 *)
  destruct M as [s|s| |s m e]; cbn [SFcompare lit_30_0] in Hcmp;
    discriminate.
Qed.
End GainClamp.

(** * Further properties of the code *)

(** ** Comparisons of IEEE numbers *)

Lemma SFcompare_numbers (a b : spec_float) :
  is_number a = true -> is_number b = true ->
  exists c, SFcompare a b = Some c.
Proof.
  destruct a as [sa|sa| |sa ma ea], b as [sb|sb| |sb mb eb];
    cbn [is_number SFcompare]; intros Ha Hb; try discriminate; eexists; reflexivity.
Qed.

Lemma SFleb_numbers (a b : spec_float) :
  SFleb a b = true -> is_number a = true /\ is_number b = true.
Proof.
  unfold SFleb.
  destruct a as [sa|sa| |sa ma ea], b as [sb|sb| |sb mb eb];
    cbn [is_number SFcompare]; intros H; try discriminate; split; reflexivity.
Qed.

Lemma SFleb_not_SFltb (a b : spec_float) :
  SFleb a b = true -> SFltb b a = false.
Proof.
  unfold SFleb, SFltb. rewrite (SFcompare_swap b a).
  destruct (SFcompare a b) as [[| |]|]; cbn; intros H; try discriminate; reflexivity.
Qed.

Lemma not_SFltb_SFleb (a b : spec_float) :
  is_number a = true -> is_number b = true ->
  SFltb a b = false -> SFleb b a = true.
Proof.
  intros Ha Hb. unfold SFleb, SFltb. rewrite (SFcompare_swap b a).
  destruct (SFcompare_numbers a b Ha Hb) as [c ->].
  destruct c; cbn; intros H; try discriminate; reflexivity.
Qed.

Lemma SFleb_refl (a : spec_float) : is_number a = true -> SFleb a a = true.
Proof.
  unfold SFleb.
  destruct a as [s|s| |s m e]; cbn [is_number SFcompare]; intros H;
    try discriminate; try (destruct s; reflexivity).
  destruct s; rewrite Z.compare_refl, Pos.compare_cont_refl; reflexivity.
Qed.

(** [a == b] on numbers means the same sign, mantissa and exponent, except
    for the two zeros. *)
Lemma SFcompare_Eq_finite (s : bool) (m : positive) (e : Z) (b : spec_float) :
  SFcompare (S754_finite s m e) b = Some Eq -> b = S754_finite s m e.
Proof.
  destruct b as [sb|sb| |sb mb eb]; cbn [SFcompare]; intros H.
  - destruct s; discriminate.
  - destruct sb; discriminate.
  - discriminate.
  - destruct s, sb; try discriminate;
      destruct (e ?= eb)%Z eqn:He; try discriminate;
      apply Z.compare_eq in He; subst eb;
      destruct (Pos.compare_cont Eq m mb) eqn:Hm; try discriminate;
      apply Pos.compare_eq in Hm; subst; reflexivity.
Qed.

(** ** The clamping macros *)

(** [CLAMP(v, min, max)] with [min <= max]: a NaN passes through; a number
    comes out inside [min, max], and unchanged when it already lies
    there. *)
Theorem CLAMP_bounds :
  forall (v lo hi : double),
    F64.le lo hi = true ->
    CLAMP S754_nan lo hi = S754_nan /\
    (is_number v = true ->
     F64.le lo (CLAMP v lo hi) = true /\ F64.le (CLAMP v lo hi) hi = true) /\
    (F64.le lo v = true -> F64.le v hi = true -> CLAMP v lo hi = v).
Proof.
  intros v lo hi Hle. unfold F64.le in *.
  destruct (SFleb_numbers _ _ Hle) as [Hlo Hhi].
  split; [|split].
  - unfold CLAMP, MIN, MAX, F64.lt, F64.gt, SFltb.
    destruct lo, hi; reflexivity.
  - intros Hv. unfold CLAMP, MIN, MAX, F64.lt, F64.gt.
    destruct (SFltb v lo) eqn:Hvlo.
    + rewrite (SFleb_not_SFltb _ _ Hle).
      split; [apply SFleb_refl; exact Hlo | exact Hle].
    + destruct (SFltb hi v) eqn:Hhiv.
      * split; [exact Hle | apply SFleb_refl; exact Hhi].
      * split; apply not_SFltb_SFleb; assumption.
  - intros H1 H2. unfold CLAMP, MIN, MAX, F64.lt, F64.gt.
    rewrite (SFleb_not_SFltb _ _ H1), (SFleb_not_SFltb _ _ H2). reflexivity.
Qed.

(** [CLAMP] at 45.0 between -90.0 and 30.0. *)
Lemma CLAMP_bounds_witness :
  F64.le lit_m90_0 lit_30_0 = true /\
  F64.le (CLAMP (F64.of_Z 45) lit_m90_0 lit_30_0) lit_30_0 = true.
Proof.
  split; [reflexivity|].
  apply (CLAMP_bounds (F64.of_Z 45) lit_m90_0 lit_30_0); reflexivity.
Defined.

(** ** The gain conversion at and beyond the ends of its range *)

Lemma SFleb_SFltb_or_same (s : bool) (m : positive) (e : Z) (x : spec_float) :
  SFleb (S754_finite s m e) x = true ->
  SFltb (S754_finite s m e) x = true \/ x = S754_finite s m e.
Proof.
  unfold SFleb, SFltb.
  destruct (SFcompare (S754_finite s m e) x) as [[| |]|] eqn:Hc;
    intros H; try discriminate.
  - right. apply SFcompare_Eq_finite. exact Hc.
  - left. reflexivity.
Qed.

Lemma CLAMP_at_or_below_floor (x : double) :
  F64.le x lit_m90_0 = true -> CLAMP x lit_m90_0 lit_30_0 = lit_m90_0.
Proof.
  unfold F64.le. intros H.
  assert (HM : MAX lit_m90_0 x = lit_m90_0).
  { unfold MAX, F64.gt. destruct (SFltb x lit_m90_0) eqn:Hlt; [reflexivity|].
    unfold SFleb, SFltb in *. rewrite (SFcompare_swap x lit_m90_0) in H, Hlt.
    destruct (SFcompare lit_m90_0 x) as [[| |]|] eqn:Hc; cbn in H, Hlt;
      try discriminate.
    apply SFcompare_Eq_finite in Hc. exact Hc. }
  unfold CLAMP. rewrite HM. reflexivity.
Qed.

Lemma CLAMP_at_or_above_ceiling (x : double) :
  F64.le lit_30_0 x = true -> CLAMP x lit_m90_0 lit_30_0 = lit_30_0.
Proof.
  unfold F64.le. intros H.
  assert (HM : MAX lit_m90_0 x = x).
  { unfold MAX, F64.gt, SFltb, SFleb, lit_m90_0, lit_30_0 in *.
    destruct x as [s|s| |s m e]; cbn [SFcompare] in *; try discriminate.
    - destruct s; [discriminate | reflexivity].
    - destruct s; [discriminate | reflexivity]. }
  unfold CLAMP, MIN, F64.lt. rewrite HM.
  destruct (SFleb_SFltb_or_same _ _ _ _ H) as [Hlt | Heq].
  - change (S754_finite false 8444249301319680 (-48)) with lit_30_0 in Hlt.
    rewrite Hlt. reflexivity.
  - rewrite Heq. destruct (SFltb _ _); reflexivity.
Qed.

Section GainEnds.
Context {libm : Libm} {sst : SstFilters} {smooth : ParamSmooth}.

(** Writing the Gain parameter, in both variants: a NaN and every value at
    or below -90 dB give the linear gain 0.0 exactly, and every value at or
    above 30 dB gives the gain of 30 dB, [powf(10.0f, 1.5f)]. *)
Theorem gain_floor_and_ceiling :
  forall (value : float),
    let low := value = S754_nan \/ F64.le (F64.of_float value) lit_m90_0 = true in
    let high := F64.le lit_30_0 (F64.of_float value) = true in
    let top := powf lit_10_0f (F32.div (F32.of_Z 3) (F32.of_Z 2)) in
    (forall w : Filtered.World,
        let g := Filtered.fGainLinear
                   (Filtered.self (final (Filtered.setParameterValue 0 value w))) in
        (low -> g = F32.zero) /\ (high -> g = top)) /\
    (forall w : GainOnly.World,
        let g := GainOnly.fGainLinear
                   (GainOnly.self (final (GainOnly.setParameterValue 0 value w))) in
        (low -> g = F32.zero) /\ (high -> g = top)).
Proof.
  intros value; cbn zeta.
  assert (Hlow : value = S754_nan \/ F64.le (F64.of_float value) lit_m90_0 = true ->
                 DB_CO (CLAMP (F64.of_float value) lit_m90_0 lit_30_0) = F32.zero).
  { intros [-> | H]; [reflexivity|].
    rewrite (CLAMP_at_or_below_floor _ H). reflexivity. }
  assert (Hhigh : F64.le lit_30_0 (F64.of_float value) = true ->
                  DB_CO (CLAMP (F64.of_float value) lit_m90_0 lit_30_0)
                  = powf lit_10_0f (F32.div (F32.of_Z 3) (F32.of_Z 2))).
  { intros H. rewrite (CLAMP_at_or_above_ceiling _ H). reflexivity. }
  split; intros w; split; assumption.
Qed.
End GainEnds.

(** The gain written as -120 dB on the stand-in plugin. *)
Lemma gain_floor_and_ceiling_witness :
  F64.le (F64.of_float (F32.of_Z (-120))) lit_m90_0 = true /\
  Filtered.fGainLinear
    (Filtered.self
       (final (Filtered.setParameterValue (libm := Stub.libm) (sst := Stub.sst)
                 (smooth := Stub.smooth) 0 (F32.of_Z (-120)) Stub.filtered0)))
  = F32.zero.
Proof.
  split; [reflexivity|].
  apply (@gain_floor_and_ceiling Stub.libm Stub.sst Stub.smooth (F32.of_Z (-120))).
  right; reflexivity.
Defined.

(** ** What the callbacks leave alone *)

Section Frames.
Context {libm : Libm} {sst : SstFilters} {smooth : ParamSmooth}.

(** The filtered [run] changes none of the parameter members. *)
Lemma filtered_run_keeps_parameters (w : Filtered.World) inputs outputs frames :
  let p := Filtered.self w in
  let p' := Filtered.self (final (Filtered.run inputs outputs frames w)) in
  Filtered.fGainDB p' = Filtered.fGainDB p /\
  Filtered.fGainLinear p' = Filtered.fGainLinear p /\
  Filtered.fFreqNote p' = Filtered.fFreqNote p /\
  Filtered.fResonance p' = Filtered.fResonance p.
Proof.
  cbn zeta. destruct (run_spec inputs outputs frames w) as [-> _].
  apply (for_from_invariant
           (fun w' : Filtered.World =>
              Filtered.fGainDB (Filtered.self w') = Filtered.fGainDB (Filtered.self w) /\
              Filtered.fGainLinear (Filtered.self w') = Filtered.fGainLinear (Filtered.self w) /\
              Filtered.fFreqNote (Filtered.self w') = Filtered.fFreqNote (Filtered.self w) /\
              Filtered.fResonance (Filtered.self w') = Filtered.fResonance (Filtered.self w))).
  - intros i w' H. rewrite run_sample_spec. exact H.
  - repeat split; reflexivity.
Qed.

(** The gain-only [run] changes none of the parameter members. *)
Lemma gain_only_run_keeps_parameters (w : GainOnly.World) inputs outputs frames :
  let p := GainOnly.self w in
  let p' := GainOnly.self (final (GainOnly.run inputs outputs frames w)) in
  GainOnly.fGainDB p' = GainOnly.fGainDB p /\
  GainOnly.fGainLinear p' = GainOnly.fGainLinear p /\
  GainOnly.fFreqNote p' = GainOnly.fFreqNote p.
Proof.
  cbn zeta. unfold GainOnly.run.
  apply (for_from_invariant
           (fun w' : GainOnly.World =>
              GainOnly.fGainDB (GainOnly.self w') = GainOnly.fGainDB (GainOnly.self w) /\
              GainOnly.fGainLinear (GainOnly.self w') = GainOnly.fGainLinear (GainOnly.self w) /\
              GainOnly.fFreqNote (GainOnly.self w') = GainOnly.fFreqNote (GainOnly.self w))).
  - intros i w' H. rewrite gain_only_run_sample_spec. exact H.
  - repeat split; reflexivity.
Qed.

Lemma filtered_getParameterValue_final (index : Z) (w : Filtered.World) :
  final (Filtered.getParameterValue index w) = w.
Proof. destruct index as [|[[p|p|]|[p|p|]|]|p]; reflexivity. Qed.

Lemma gain_only_getParameterValue_final (index : Z) (w : GainOnly.World) :
  final (GainOnly.getParameterValue index w) = w.
Proof. destruct index as [|[p|p|]|p]; reflexivity. Qed.
End Frames.

(** ** Parameters over sequences of host calls *)

Section HostSequences.
Context {libm : Libm} {sst : SstFilters} {smooth : ParamSmooth}.

Lemma filtered_get_after_call (index : Z) (c : FilteredHost.call) (w : Filtered.World) :
  (0 <= index < Filtered.kParamCount)%Z ->
  value (Filtered.getParameterValue index (FilteredHost.exec c w))
  = FilteredHost.last_written index [c] (value (Filtered.getParameterValue index w)).
Proof.
  unfold Filtered.kParamCount. intros Hidx.
  assert (Hcases : index = 0%Z \/ index = 1%Z \/ index = 2%Z) by lia.
  destruct c as [i|i x| |inputs outputs frames|sr]; cbn [FilteredHost.exec FilteredHost.last_written fold_left].
  - rewrite filtered_getParameterValue_final. reflexivity.
  - destruct Hcases as [-> | [-> | ->]];
      destruct i as [|[[p|p|]|[p|p|]|]|p]; reflexivity.
  - destruct Hcases as [-> | [-> | ->]]; reflexivity.
  - destruct (filtered_run_keeps_parameters w inputs outputs frames)
      as (H0 & _ & H1 & H2).
    destruct Hcases as [-> | [-> | ->]]; cbn; assumption.
  - destruct Hcases as [-> | [-> | ->]]; reflexivity.
Qed.

Lemma gain_only_get_after_call (index : Z) (c : GainOnlyHost.call) (w : GainOnly.World) :
  (0 <= index < GainOnly.kParamCount)%Z ->
  value (GainOnly.getParameterValue index (GainOnlyHost.exec c w))
  = GainOnlyHost.last_written index [c] (value (GainOnly.getParameterValue index w)).
Proof.
  unfold GainOnly.kParamCount. intros Hidx.
  assert (Hcases : index = 0%Z \/ index = 1%Z) by lia.
  destruct c as [i|i x| |inputs outputs frames|sr]; cbn [GainOnlyHost.exec GainOnlyHost.last_written fold_left].
  - rewrite gain_only_getParameterValue_final. reflexivity.
  - destruct Hcases as [-> | ->];
      destruct i as [|[p|p|]|p]; reflexivity.
  - destruct Hcases as [-> | ->]; reflexivity.
  - destruct (gain_only_run_keeps_parameters w inputs outputs frames)
      as (H0 & _ & H1).
    destruct Hcases as [-> | ->]; cbn; assumption.
  - destruct Hcases as [-> | ->]; reflexivity.
Qed.

(** Latest write wins: after any sequence of host calls (parameter reads
    and writes, [activate], [run], [sampleRateChanged]),
    [getParameterValue(index)] of a declared parameter returns the value of
    the last [setParameterValue(index, .)] of the sequence, exactly as it
    was written, or what it returned before when the sequence has none.  In
    both variants. *)
Theorem parameter_reads_last_write :
  forall (index : Z),
    (forall (cs : list FilteredHost.call) (w : Filtered.World),
        (0 <= index < Filtered.kParamCount)%Z ->
        value (Filtered.getParameterValue index (FilteredHost.exec_all cs w))
        = FilteredHost.last_written index cs
            (value (Filtered.getParameterValue index w))) /\
    (forall (cs : list GainOnlyHost.call) (w : GainOnly.World),
        (0 <= index < GainOnly.kParamCount)%Z ->
        value (GainOnly.getParameterValue index (GainOnlyHost.exec_all cs w))
        = GainOnlyHost.last_written index cs
            (value (GainOnly.getParameterValue index w))).
Proof.
  intros index; split.
  - induction cs as [|c cs IH]; intros w Hidx; [reflexivity|].
    unfold FilteredHost.exec_all, FilteredHost.last_written in *.
    cbn [fold_left]. rewrite (IH _ Hidx).
    pose proof (filtered_get_after_call c w Hidx) as Hc.
    cbn [FilteredHost.last_written fold_left] in Hc. rewrite Hc. reflexivity.
  - induction cs as [|c cs IH]; intros w Hidx; [reflexivity|].
    unfold GainOnlyHost.exec_all, GainOnlyHost.last_written in *.
    cbn [fold_left]. rewrite (IH _ Hidx).
    pose proof (gain_only_get_after_call c w Hidx) as Hc.
    cbn [GainOnlyHost.last_written fold_left] in Hc. rewrite Hc. reflexivity.
Qed.
End HostSequences.

(** Latest write wins on the stand-in plugin: FrequencyNote written twice,
    with a [run] and an [activate] in between and after. *)
Lemma parameter_reads_last_write_witness :
  (0 <= 1 < Filtered.kParamCount)%Z /\
  value
    (Filtered.getParameterValue 1
       (FilteredHost.exec_all (libm := Stub.libm) (sst := Stub.sst)
          (smooth := Stub.smooth)
          [FilteredHost.SetParameterValue 1 (F32.of_Z 5);
           FilteredHost.Run (Stub.inputs_at 0 8) (Stub.outputs_at 16 24) 2;
           FilteredHost.SetParameterValue 1 (F32.of_Z 7);
           FilteredHost.SetParameterValue 2 F32.one;
           FilteredHost.Activate]
          Stub.filtered0))
  = F32.of_Z 7.
Proof.
  assert (H : (0 <= 1 < Filtered.kParamCount)%Z)
    by (unfold Filtered.kParamCount; lia).
  split; [exact H|].
  rewrite (proj1 (@parameter_reads_last_write Stub.libm Stub.sst Stub.smooth 1) _
             Stub.filtered0 H).
  reflexivity.
Defined.

Section GainCache.
Context {libm : Libm} {sst : SstFilters} {smooth : ParamSmooth}.

Lemma filtered_call_keeps_gain_cached (c : FilteredHost.call) (w : Filtered.World) :
  FilteredHost.gain_cached (Filtered.self w) ->
  FilteredHost.gain_cached (Filtered.self (FilteredHost.exec c w)).
Proof.
  unfold FilteredHost.gain_cached. intros H.
  destruct c as [i|i x| |inputs outputs frames|sr]; cbn [FilteredHost.exec].
  - rewrite filtered_getParameterValue_final. exact H.
  - destruct i as [|[[p|p|]|[p|p|]|]|p]; try exact H. reflexivity.
  - exact H.
  - destruct (filtered_run_keeps_parameters w inputs outputs frames)
      as (H0 & H1 & _).
    cbn zeta in H0, H1. rewrite H0, H1. exact H.
  - exact H.
Qed.

Lemma gain_only_call_keeps_gain_cached (c : GainOnlyHost.call) (w : GainOnly.World) :
  GainOnlyHost.gain_cached (GainOnly.self w) ->
  GainOnlyHost.gain_cached (GainOnly.self (GainOnlyHost.exec c w)).
Proof.
  unfold GainOnlyHost.gain_cached. intros H.
  destruct c as [i|i x| |inputs outputs frames|sr]; cbn [GainOnlyHost.exec].
  - rewrite gain_only_getParameterValue_final. exact H.
  - destruct i as [|[p|p|]|p]; try exact H. reflexivity.
  - exact H.
  - destruct (gain_only_run_keeps_parameters w inputs outputs frames)
      as (H0 & H1 & _).
    cbn zeta in H0, H1. rewrite H0, H1. exact H.
  - exact H.
Qed.

(** The linear gain the sample loop uses is at all times the conversion
    [DB_CO(CLAMP(fGainDB, -90, 30))] of the stored decibel value: it is so
    in a newly constructed plugin (given [powf(10, 0) = 1]) and every host
    call keeps it so.  In both variants. *)
Theorem gain_cache_invariant :
  powf lit_10_0f F32.zero = F32.one ->
  (forall plugin uninit m (cs : list FilteredHost.call),
      FilteredHost.gain_cached
        (Filtered.self
           (FilteredHost.exec_all cs
              (Filtered.Build_World (Filtered.ImGuiPluginDSP_new plugin uninit) m)))) /\
  (forall plugin t tf m (cs : list GainOnlyHost.call),
      GainOnlyHost.gain_cached
        (GainOnly.self
           (GainOnlyHost.exec_all cs
              (GainOnly.Build_World (GainOnly.ImGuiPluginDSP_new plugin t tf) m)))).
Proof.
  intros Hpow. split.
  - intros plugin uninit m cs.
    assert (Hall : forall cs (w : Filtered.World),
               FilteredHost.gain_cached (Filtered.self w) ->
               FilteredHost.gain_cached (Filtered.self (FilteredHost.exec_all cs w))).
    { clear. induction cs as [|c cs' IH]; intros w H; [exact H|].
      apply IH, filtered_call_keeps_gain_cached, H. }
    apply Hall. unfold FilteredHost.gain_cached. cbn. symmetry. exact Hpow.
  - intros plugin t tf m cs.
    assert (Hall : forall cs (w : GainOnly.World),
               GainOnlyHost.gain_cached (GainOnly.self w) ->
               GainOnlyHost.gain_cached (GainOnly.self (GainOnlyHost.exec_all cs w))).
    { clear. induction cs as [|c cs' IH]; intros w H; [exact H|].
      apply IH, gain_only_call_keeps_gain_cached, H. }
    apply Hall. unfold GainOnlyHost.gain_cached. cbn. symmetry. exact Hpow.
Qed.
End GainCache.

(** The gain cache on the stand-in plugin after a gain write and a run. *)
Lemma gain_cache_invariant_witness :
  @powf Stub.libm lit_10_0f F32.zero = F32.one /\
  FilteredHost.gain_cached (libm := Stub.libm)
    (Filtered.self
       (FilteredHost.exec_all (libm := Stub.libm) (sst := Stub.sst)
          (smooth := Stub.smooth)
          [FilteredHost.SetParameterValue 0 (F32.of_Z (-6));
           FilteredHost.Run (Stub.inputs_at 0 8) (Stub.outputs_at 16 24) 2]
          Stub.filtered0)).
Proof.
  split; [reflexivity|].
  apply (proj1 (@gain_cache_invariant Stub.libm Stub.sst Stub.smooth eq_refl)
           Stub.host Stub.stale_delay Stub.ramp).
Defined.

(** ** The memory footprint of [run] *)

Lemma in_block_spec (base n a : nat) :
  in_block base n a = true <-> base <= a < base + n.
Proof.
  unfold in_block. rewrite andb_true_iff, Nat.leb_le, Nat.ltb_lt. reflexivity.
Qed.

Lemma in_block_outside (base n a : nat) :
  in_block base n a = false -> ~ (base <= a < base + n).
Proof.
  intros H Hin. apply in_block_spec in Hin. congruence.
Qed.

Section Footprint.
Context {libm : Libm} {sst : SstFilters} {smooth : ParamSmooth}.

Lemma filtered_loop_footprint inpL outL outR frames n :
  forall start (w : Filtered.World),
    start + n <= frames ->
    let r := for_from start n (Filtered.run_sample inpL outL outR) w in
    forallb (in_filtered_footprint inpL outL outR frames) (events r) = true /\
    (forall a, in_block outL (frames + 3) a = false ->
               in_block outR frames a = false ->
               Filtered.mem (final r) a = Filtered.mem w a).
Proof.
  induction n as [|n IH]; intros start w Hle; cbn zeta.
  - split; [reflexivity|]. intros; reflexivity.
  - rewrite for_from_S_events, for_from_S_final, forallb_app.
    destruct (IH (S start) (final (Filtered.run_sample inpL outL outR start w)))
      as [Hev Hmem]; [lia|].
    rewrite Hev. rewrite run_sample_spec in *.
    cbn [events final fst snd forallb in_filtered_footprint Filtered.mem] in *.
    split.
    + assert (HL : forall a, inpL <= a < inpL + (frames + 3) ->
                             in_block inpL (frames + 3) a = true)
        by (intros; apply in_block_spec; assumption).
      assert (HO : forall a, outL <= a < outL + (frames + 3) ->
                             in_block outL (frames + 3) a = true)
        by (intros; apply in_block_spec; assumption).
      assert (HR : in_block outR frames (outR + start) = true)
        by (apply in_block_spec; lia).
      rewrite !HL, !HO, HR by lia. cbn [andb orb]. rewrite orb_true_r. reflexivity.
    + intros a Ha1 Ha2. rewrite (Hmem a Ha1 Ha2).
      apply in_block_outside in Ha1. apply in_block_outside in Ha2.
      rewrite mem_store_other by lia. apply store4_outside. lia.
Qed.

(** Whatever the buffer layout, the filtered [run] loads only from the left
    input buffer and the three floats after it, stores only to the left
    output buffer and the three floats after it and to the right output
    buffer, and leaves every other float of the host memory as it was. *)
Theorem filtered_run_footprint :
  forall (w : Filtered.World) inputs outputs frames,
    let r := Filtered.run inputs outputs frames w in
    forallb (in_filtered_footprint (inputs 0) (outputs 0) (outputs 1) frames)
      (events r) = true /\
    (forall a, in_block (outputs 0) (frames + 3) a = false ->
               in_block (outputs 1) frames a = false ->
               Filtered.mem (final r) a = Filtered.mem w a).
Proof.
  intros w inputs outputs frames; cbn zeta.
  destruct (run_spec inputs outputs frames w) as [-> ->].
  destruct (@filtered_loop_footprint (inputs 0) (outputs 0) (outputs 1) frames
              frames 0 (FilteredRef.prepared w)) as [Hev Hmem]; [lia|].
  split.
  - cbn [forallb in_filtered_footprint]. exact Hev.
  - exact Hmem.
Qed.

Lemma gain_only_loop_ignores_memory outL outR n :
  forall start (p : GainOnly.ImGuiPluginDSP) (m1 m2 : memory),
    let r1 := for_from start n (GainOnly.run_sample outL outR) (GainOnly.Build_World p m1) in
    let r2 := for_from start n (GainOnly.run_sample outL outR) (GainOnly.Build_World p m2) in
    GainOnly.self (final r1) = GainOnly.self (final r2) /\
    events r1 = events r2 /\
    existsb is_Load (events r1) = false.
Proof.
  induction n as [|n IH]; intros start p m1 m2; cbn zeta.
  - repeat split; reflexivity.
  - rewrite !for_from_S_events, !for_from_S_final, existsb_app.
    rewrite !gain_only_run_sample_spec.
    cbn [events final fst snd GainOnly.self GainOnly.mem existsb is_Load orb].
    edestruct (IH (S start) (snd (GainOnlyRef.dsp_step p))) as (Hs & He & Hl).
    cbn zeta in Hs, He, Hl.
    rewrite Hl. split; [exact Hs|]. split; [|reflexivity].
    f_equal. exact He.
Qed.

(** The gain-only [run] never reads the host memory: it makes no load, and
    its log (the stored output samples included) and the object it leaves
    are the same whatever the memory holds and wherever the input pointers
    point. *)
Theorem gain_only_run_ignores_memory :
  forall (p : GainOnly.ImGuiPluginDSP) (m1 m2 : memory)
         (inputs1 inputs2 outputs : nat -> nat) (frames : nat),
    let r1 := GainOnly.run inputs1 outputs frames (GainOnly.Build_World p m1) in
    let r2 := GainOnly.run inputs2 outputs frames (GainOnly.Build_World p m2) in
    GainOnly.self (final r1) = GainOnly.self (final r2) /\
    events r1 = events r2 /\
    existsb is_Load (events r1) = false.
Proof.
  intros p m1 m2 inputs1 inputs2 outputs frames.
  apply gain_only_loop_ignores_memory.
Qed.
End Footprint.

(** ** One filter call and one smoother call per sample *)

Section CallsPerSample.
Context {libm : Libm} {sst : SstFilters} {smooth : ParamSmooth}.

Lemma filtered_loop_calls inpL outL outR n :
  forall start (w : Filtered.World),
    let es := events (for_from start n (Filtered.run_sample inpL outL outR) w) in
    filter is_process_call es
    = repeat (Call_process (Filtered.fGainLinear (Filtered.self w))) n /\
    List.length (filter is_FUnit_call es) = n.
Proof.
  induction n as [|n IH]; intros start w; cbn zeta.
  - split; reflexivity.
  - rewrite for_from_S_events, !filter_app, length_app.
    destruct (IH (S start) (final (Filtered.run_sample inpL outL outR start w)))
      as [Hp Hf].
    cbn zeta in Hp, Hf. rewrite Hp, Hf.
    rewrite run_sample_spec.
    cbn [events final fst snd filter is_process_call is_FUnit_call
           List.length app repeat Filtered.self].
    split; reflexivity.
Qed.

Lemma gain_only_loop_calls outL outR n :
  forall start (w : GainOnly.World),
    let es := events (for_from start n (GainOnly.run_sample outL outR) w) in
    filter is_process_call es
    = repeat (Call_process (GainOnly.fGainLinear (GainOnly.self w))) n /\
    List.length (filter is_FUnit_call es) = n.
Proof.
  induction n as [|n IH]; intros start w; cbn zeta.
  - split; reflexivity.
  - rewrite for_from_S_events, !filter_app, length_app.
    destruct (IH (S start) (final (GainOnly.run_sample outL outR start w)))
      as [Hp Hf].
    cbn zeta in Hp, Hf. rewrite Hp, Hf.
    rewrite gain_only_run_sample_spec.
    cbn [events final fst snd filter is_process_call is_FUnit_call
           List.length app repeat GainOnly.self].
    split; reflexivity.
Qed.

(** In both variants a [run] of [frames] frames calls the filter unit
    exactly [frames] times and the smoother's [process] exactly [frames]
    times, every time with the linear gain the plugin held when [run] was
    entered as the target. *)
Theorem run_calls_once_per_sample :
  (forall (w : Filtered.World) inputs outputs frames,
      let es := events (Filtered.run inputs outputs frames w) in
      filter is_process_call es
      = repeat (Call_process (Filtered.fGainLinear (Filtered.self w))) frames /\
      List.length (filter is_FUnit_call es) = frames) /\
  (forall (w : GainOnly.World) inputs outputs frames,
      let es := events (GainOnly.run inputs outputs frames w) in
      filter is_process_call es
      = repeat (Call_process (GainOnly.fGainLinear (GainOnly.self w))) frames /\
      List.length (filter is_FUnit_call es) = frames).
Proof.
  split.
  - intros w inputs outputs frames; cbn zeta.
    destruct (run_spec inputs outputs frames w) as [_ ->].
    cbn [filter is_process_call is_FUnit_call].
    apply (filtered_loop_calls (inputs 0) (outputs 0) (outputs 1) frames 0
             (FilteredRef.prepared w)).
  - intros w inputs outputs frames.
    apply (gain_only_loop_calls (outputs 0) (outputs 1) frames 0 w).
Qed.
End CallsPerSample.

(** ** Splitting a block *)

Section LoopSplit.
Variable St : Type.
Implicit Types (body : nat -> M St unit) (s : St).

Lemma for_from_app n m : forall start body s,
  let r1 := for_from start n body s in
  let r2 := for_from (start + n) m body (final r1) in
  final (for_from start (n + m) body s) = final r2 /\
  events (for_from start (n + m) body s) = events r1 ++ events r2.
Proof.
  induction n as [|n IH]; intros start body s; cbn zeta.
  - rewrite Nat.add_0_r. split; reflexivity.
  - cbn [Nat.add].
    rewrite !for_from_S_final, !for_from_S_events.
    destruct (IH (S start) body (final (body start s))) as [Hf He].
    cbn zeta in Hf, He.
    replace (start + S n) with (S start + n) by lia.
    rewrite Hf, He, app_assoc. split; reflexivity.
Qed.

Lemma for_from_shift k body1 body2 :
  (forall i s, body2 i s = body1 (i + k) s) ->
  forall m start s, for_from (start + k) m body1 s = for_from start m body2 s.
Proof.
  intros Hbody m; induction m as [|m IH]; intros start s; [reflexivity|].
  cbn [for_from]. unfold bind.
  rewrite <- Hbody.
  destruct (body2 start s) as [[u s1] e1].
  change (S (start + k)) with (S start + k). rewrite IH. reflexivity.
Qed.
End LoopSplit.

Section GainOnlyBlocks.
Context {libm : Libm} {sst : SstFilters} {smooth : ParamSmooth}.

(** In the gain-only variant the block size does not matter: one [run] of
    [n + m] frames leaves the same object and the same host memory, with the
    same log, as a [run] of [n] frames followed by a [run] of [m] frames on
    the output buffers advanced by [n]. *)
Theorem gain_only_run_splits :
  forall (w : GainOnly.World) inputs outputs n m,
    let r := GainOnly.run inputs outputs (n + m) w in
    let r1 := GainOnly.run inputs outputs n w in
    let r2 := GainOnly.run inputs (fun k => outputs k + n) m (final r1) in
    final r = final r2 /\ events r = events r1 ++ events r2.
Proof.
  intros w inputs outputs n m; cbn zeta. unfold GainOnly.run.
  destruct (for_from_app n m 0 (GainOnly.run_sample (outputs 0) (outputs 1)) w)
    as [Hf He].
  cbn zeta in Hf, He. rewrite Hf, He.
  rewrite (for_from_shift n (GainOnly.run_sample (outputs 0) (outputs 1))
             (GainOnly.run_sample (outputs 0 + n) (outputs 1 + n))).
  - split; reflexivity.
  - intros i s. rewrite !gain_only_run_sample_spec.
    replace (outputs 0 + n + i) with (outputs 0 + (i + n)) by lia.
    replace (outputs 1 + n + i) with (outputs 1 + (i + n)) by lia.
    reflexivity.
Qed.

Lemma to_uint64_succ (t : Z) (n : nat) :
  to_uint64 (to_uint64 (t + Z.of_nat n) + 1) = to_uint64 (t + Z.of_nat (S n)).
Proof.
  unfold to_uint64. rewrite Z.add_mod_idemp_l by lia.
  f_equal. lia.
Qed.

(** The sample counter of the gain-only variant: after a [run] of [frames]
    frames the 64-bit counter [time] has advanced by [frames], wrapping at
    2^64, and [timef] holds the last counter value divided by the sample
    rate. *)
Theorem gain_only_time_counter :
  forall (w : GainOnly.World) inputs outputs frames,
    (0 <= GainOnly.time (GainOnly.self w) < 2 ^ 64)%Z ->
    let p := GainOnly.self w in
    let p' := GainOnly.self (final (GainOnly.run inputs outputs frames w)) in
    GainOnly.time p' = ((GainOnly.time p + Z.of_nat frames) mod 2 ^ 64)%Z /\
    (0 < frames ->
     GainOnly.timef p'
     = F32.of_double (F64.div (F64.of_Z (GainOnly.time p'))
                        (getSampleRate (GainOnly.base p)))).
Proof.
  intros w inputs outputs frames Hrange; cbn zeta. unfold GainOnly.run.
  induction frames as [|n IH].
  - split; [|lia]. cbn [for_from final ret fst snd].
    rewrite Z.add_0_r, Z.mod_small by exact Hrange. reflexivity.
  - destruct IH as [IHt _].
    rewrite for_from_snoc_final, gain_only_run_sample_spec.
    cbn [final fst snd GainOnly.self].
    unfold GainOnlyRef.dsp_step.
    cbn [snd GainOnly.time GainOnly.timef GainOnly.set_filterState
           GainOnly.set_fSmoothGain GainOnly.set_timef GainOnly.set_time
           GainOnly.base].
    rewrite IHt. fold (to_uint64 (GainOnly.time (GainOnly.self w) + Z.of_nat n)).
    rewrite to_uint64_succ. unfold to_uint64.
    split; [reflexivity|]. intros _.
    assert (Hbase : forall k (w0 : GainOnly.World),
               GainOnly.base
                 (GainOnly.self
                    (final (for_from 0 k
                              (GainOnly.run_sample (outputs 0) (outputs 1)) w0)))
               = GainOnly.base (GainOnly.self w0)).
    { intros k w0.
      apply (for_from_invariant
               (fun w' : GainOnly.World =>
                  GainOnly.base (GainOnly.self w') = GainOnly.base (GainOnly.self w0))).
      - intros i w' H. rewrite gain_only_run_sample_spec. exact H.
      - reflexivity. }
    rewrite Hbase. reflexivity.
Qed.
End GainOnlyBlocks.

(** The counter on the stand-in plugin after three frames. *)
Lemma gain_only_time_counter_witness :
  (0 <= GainOnly.time (GainOnly.self Stub.gainonly0) < 2 ^ 64)%Z /\
  GainOnly.time
    (GainOnly.self
       (final (GainOnly.run (libm := Stub.libm) (sst := Stub.sst)
                 (smooth := Stub.smooth)
                 (Stub.inputs_at 0 8) (Stub.outputs_at 16 24) 3 Stub.gainonly0)))
  = 3%Z.
Proof.
  assert (H : (0 <= GainOnly.time (GainOnly.self Stub.gainonly0) < 2 ^ 64)%Z)
    by (cbn; lia).
  split; [exact H|].
  rewrite (proj1 (@gain_only_time_counter Stub.libm Stub.sst Stub.smooth
                    Stub.gainonly0 (Stub.inputs_at 0 8) (Stub.outputs_at 16 24) 3 H)).
  reflexivity.
Defined.

(** ** A newly constructed plugin and its parameter descriptors *)

Section FreshPlugin.
Context {libm : Libm} {sst : SstFilters} {smooth : ParamSmooth}.

(** For every declared parameter, in both variants: the default that
    [initParameter] declares lies in the declared range, and so does the
    value [getParameterValue] returns from a newly constructed plugin.  That
    value compares equal to the declared default for Gain and Resonance,
    but not for FrequencyNote (index 1), which starts at 0.0 against a
    declared default of -12.0. *)
Theorem fresh_plugin_parameters :
  forall (d : DistrhoParameter) (index : Z),
    (forall plugin uninit m,
        (0 <= index < Filtered.kParamCount)%Z ->
        let w := Filtered.Build_World (Filtered.ImGuiPluginDSP_new plugin uninit) m in
        let desc := Filtered.initParameter index d in
        let v := value (Filtered.getParameterValue index w) in
        in_declared_range desc (ParameterRanges.def (ranges desc)) = true /\
        in_declared_range desc v = true /\
        SFeqb v (ParameterRanges.def (ranges desc)) = negb (Z.eqb index 1)) /\
    (forall plugin t tf m,
        (0 <= index < GainOnly.kParamCount)%Z ->
        let w := GainOnly.Build_World (GainOnly.ImGuiPluginDSP_new plugin t tf) m in
        let desc := GainOnly.initParameter index d in
        let v := value (GainOnly.getParameterValue index w) in
        in_declared_range desc (ParameterRanges.def (ranges desc)) = true /\
        in_declared_range desc v = true /\
        SFeqb v (ParameterRanges.def (ranges desc)) = negb (Z.eqb index 1)).
Proof.
  intros d index; split.
  - intros plugin uninit m Hidx. unfold Filtered.kParamCount in Hidx.
    assert (Hcases : index = 0%Z \/ index = 1%Z \/ index = 2%Z) by lia.
    destruct Hcases as [-> | [-> | ->]]; repeat split; reflexivity.
  - intros plugin t tf m Hidx. unfold GainOnly.kParamCount in Hidx.
    assert (Hcases : index = 0%Z \/ index = 1%Z) by lia.
    destruct Hcases as [-> | ->]; repeat split; reflexivity.
Qed.
End FreshPlugin.

(** FrequencyNote of the stand-in plugin right after construction. *)
Lemma fresh_plugin_parameters_witness :
  (0 <= 1 < Filtered.kParamCount)%Z /\
  SFeqb (value (Filtered.getParameterValue 1 Stub.filtered0)) lit_m12_0f = false.
Proof.
  assert (H : (0 <= 1 < Filtered.kParamCount)%Z)
    by (unfold Filtered.kParamCount; lia).
  split; [exact H|].
  apply (proj1 (@fresh_plugin_parameters Stub.sst Stub.smooth
                  (Filtered.initParameter 0
                     (Build_DistrhoParameter
                        (ParameterRanges.Build F32.zero F32.zero F32.zero)
                        false "" "" "" "")) 1)
           Stub.host Stub.stale_delay Stub.ramp H).
Defined.

(** The right input apart from the left loads, on the stand-in plugin: one
    frame, left input at 0, right input at 4, memories that differ at 4. *)
Lemma right_input_noninterference_witness :
  FilteredRef.agree_outside Stub.ramp Stub.ramp_with_100_at_4 4 1 /\
  disjoint 0 (1 + 3) 4 1 /\
  events (Filtered.run (sst := Stub.sst) (smooth := Stub.smooth)
            (Stub.inputs_at 0 4) (Stub.outputs_at 16 24) 1 Stub.filtered0)
  = events (Filtered.run (sst := Stub.sst) (smooth := Stub.smooth)
              (Stub.inputs_at 0 4) (Stub.outputs_at 16 24) 1
              (Filtered.Build_World (Filtered.self Stub.filtered0)
                 Stub.ramp_with_100_at_4)).
Proof.
  assert (Hagree : FilteredRef.agree_outside Stub.ramp Stub.ramp_with_100_at_4 4 1).
  { intros a Ha. unfold Stub.ramp_with_100_at_4.
    destruct (Nat.eqb_spec a 4); [lia | reflexivity]. }
  assert (Hapart : disjoint 0 (1 + 3) 4 1) by (unfold disjoint; lia).
  split; [exact Hagree|]. split; [exact Hapart|].
  apply (@right_input_noninterference Stub.sst Stub.smooth
           Stub.filtered0
           (Filtered.Build_World (Filtered.self Stub.filtered0)
              Stub.ramp_with_100_at_4)
           (Stub.inputs_at 0 4) (Stub.outputs_at 16 24) 1 eq_refl Hagree Hapart).
Defined.

(** ** What reaches the coefficient maker, and who touches host memory *)

Section CallEffects.
Context {libm : Libm} {sst : SstFilters} {smooth : ParamSmooth}.

Lemma filtered_fields_after_calls (cs : list FilteredHost.call) :
  forall (w : Filtered.World),
    let w' := FilteredHost.exec_all cs w in
    Filtered.fFreqNote (Filtered.self w')
    = FilteredHost.last_written 1 cs (Filtered.fFreqNote (Filtered.self w)) /\
    Filtered.fResonance (Filtered.self w')
    = FilteredHost.last_written 2 cs (Filtered.fResonance (Filtered.self w)).
Proof.
  induction cs as [|c cs IH]; intros w; cbn zeta; [split; reflexivity|].
  unfold FilteredHost.exec_all, FilteredHost.last_written in *.
  cbn [fold_left]. destruct (IH (FilteredHost.exec c w)) as [H1 H2].
  cbn zeta in H1, H2. rewrite H1, H2.
  assert (Hk1 : (0 <= 1 < Filtered.kParamCount)%Z) by (unfold Filtered.kParamCount; lia).
  assert (Hk2 : (0 <= 2 < Filtered.kParamCount)%Z) by (unfold Filtered.kParamCount; lia).
  pose proof (filtered_get_after_call c w Hk1) as G1.
  pose proof (filtered_get_after_call c w Hk2) as G2.
  cbn [FilteredHost.last_written fold_left] in G1, G2.
  change (value (Filtered.getParameterValue 1 (FilteredHost.exec c w)))
    with (Filtered.fFreqNote (Filtered.self (FilteredHost.exec c w))) in G1.
  change (value (Filtered.getParameterValue 2 (FilteredHost.exec c w)))
    with (Filtered.fResonance (Filtered.self (FilteredHost.exec c w))) in G2.
  rewrite G1, G2. split; reflexivity.
Qed.

(** In the filtered variant, after any sequence of host calls the next
    [run] hands to [MakeCoeffs] the FrequencyNote and the Resonance of the
    last writes of the sequence (the values the plugin started with when
    there are none), as they were written. *)
Theorem coefficients_follow_last_writes :
  forall (cs : list FilteredHost.call) (w : Filtered.World) inputs outputs frames,
    exists rest,
      events (Filtered.run inputs outputs frames (FilteredHost.exec_all cs w))
      = Call_MakeCoeffs
          (FilteredHost.last_written 1 cs (Filtered.fFreqNote (Filtered.self w)))
          (FilteredHost.last_written 2 cs (Filtered.fResonance (Filtered.self w)))
        :: Call_updateState :: rest.
Proof.
  intros cs w inputs outputs frames.
  destruct (run_spec inputs outputs frames (FilteredHost.exec_all cs w)) as [_ ->].
  destruct (filtered_fields_after_calls cs w) as [-> ->].
  eexists; reflexivity.
Qed.

(** Only [run] touches the host's sample memory: reading or writing a
    parameter, [activate] and [sampleRateChanged] leave every float of it as
    it was and make no load and no store.  In both variants. *)
Theorem callbacks_leave_memory_alone :
  (forall (w : Filtered.World) index value sr,
      let quiet (r : unit * Filtered.World * list event) :=
        Filtered.mem (final r) = Filtered.mem w /\
        forallb (fun e => match touched e with Some _ => false | None => true end)
          (events r) = true in
      Filtered.mem (final (Filtered.getParameterValue index w)) = Filtered.mem w /\
      events (Filtered.getParameterValue index w) = [] /\
      quiet (Filtered.setParameterValue index value w) /\
      quiet (Filtered.activate w) /\
      quiet (Filtered.sampleRateChanged sr w)) /\
  (forall (w : GainOnly.World) index value sr,
      let quiet (r : unit * GainOnly.World * list event) :=
        GainOnly.mem (final r) = GainOnly.mem w /\
        forallb (fun e => match touched e with Some _ => false | None => true end)
          (events r) = true in
      GainOnly.mem (final (GainOnly.getParameterValue index w)) = GainOnly.mem w /\
      events (GainOnly.getParameterValue index w) = [] /\
      quiet (GainOnly.setParameterValue index value w) /\
      quiet (GainOnly.activate w) /\
      quiet (GainOnly.sampleRateChanged sr w)).
Proof.
  split; intros w index value sr; cbn zeta.
  - split; [|split; [|split; [|split]]].
    + rewrite filtered_getParameterValue_final. reflexivity.
    + destruct index as [|[[p|p|]|[p|p|]|]|p]; reflexivity.
    + destruct index as [|[[p|p|]|[p|p|]|]|p]; split; reflexivity.
    + split; reflexivity.
    + split; reflexivity.
  - split; [|split; [|split; [|split]]].
    + rewrite gain_only_getParameterValue_final. reflexivity.
    + destruct index as [|[p|p|]|p]; reflexivity.
    + destruct index as [|[p|p|]|p]; split; reflexivity.
    + split; reflexivity.
    + split; reflexivity.
Qed.
End CallEffects.

(** In-place processing of one frame on the stand-in plugin: left input and
    left output both at address 0, right output at 24. *)
Lemma in_place_right_output_witness :
  Stub.outputs_at 0 24 0 = Stub.inputs_at 0 8 0 /\
  ~ (Stub.inputs_at 0 8 0 <= Stub.outputs_at 0 24 1 < Stub.inputs_at 0 8 0 + 4) /\
  let w' :=
    final (Filtered.run (sst := Stub.sst) (smooth := Stub.smooth)
             (Stub.inputs_at 0 8) (Stub.outputs_at 0 24) 1 Stub.filtered0) in
  Filtered.mem w' 24
  = F32.mul (Filtered.mem w' 0)
      (FilteredRef.gain_at (Filtered.self (FilteredRef.prepared Stub.filtered0))
         (fun j => window Stub.ramp (0 + j)) 0).
Proof.
  assert (H1 : Stub.outputs_at 0 24 0 = Stub.inputs_at 0 8 0) by reflexivity.
  assert (H2 : ~ (Stub.inputs_at 0 8 0 <= Stub.outputs_at 0 24 1
                  < Stub.inputs_at 0 8 0 + 4)) by (cbn; lia).
  split; [exact H1|]. split; [exact H2|].
  apply (@in_place_right_output Stub.sst Stub.smooth Stub.filtered0
           (Stub.inputs_at 0 8) (Stub.outputs_at 0 24) H1 H2).
Defined.
